(** * Verification of [process/utils.py]: LaTeX-to-image conversion helpers

    The development embeds the four functions of [utils.py]
    ([remove_captions_from_tex], [ensure_latex_document_structure],
    [tex_to_image], [convert_all_tex_to_images]) together with the pieces of
    the Python runtime they rely on: [str] methods, [posixpath], the regular
    expression used by the caption stripper, a file store, the console and the
    two external tools.

    Modelling conventions.
    - Text is [string]; a character is a code point below 256.  The file
      store holds the text that [file.read()] returns and that
      [file.write()] receives, and the captured output of a tool is the text
      that [.decode()] returns.
    - Paths are compared as strings (POSIX flavour of [os.path]); a path
      holds a file, a directory or nothing, and the directories above a path
      are looked up in the same store; a path without slash lies in the
      current directory, which is there, and the root is passed through as
      a directory.  Paths are taken without [.] and [..] components and
      without a slash at the end, so that an entry has one name; links and
      permissions are not part of the store.
    - The two tools can be launched: running one gives an exit status, its
      captured output and a new file store.  What they do is left open (a
      parameter of the development).
    - An exception leaves every effect performed before it in place, so a
      computation maps a world to an outcome and a world. *)

From Stdlib Require Import Ascii String ZArith Lia List Bool.
From stdpp Require Import base option list gmap strings pretty.

(** ** Characters *)

Definition NL : ascii := "010"%char.
Definition SLASH : ascii := "/"%char.
Definition DOT : ascii := "."%char.
Definition BACKSLASH : ascii := "\"%char.
Definition SQUOTE : ascii := "'"%char.
Definition DQUOTE : ascii := "034"%char.

Definition is_nl (c : ascii) : bool := Ascii.eqb c NL.

Definition nl : string := String NL EmptyString.

(** ** Python [str] operations *)

Module Str.

(** [needle in hay] *)
Fixpoint contains (needle hay : string) : bool :=
  String.prefix needle hay
  || match hay with
     | EmptyString => false
     | String _ hay' => contains needle hay'
     end.

(** [s.startswith(p)] *)
Definition startswith (p s : string) : bool := String.prefix p s.

(** [s.endswith(suffix)] *)
Fixpoint endswith (suffix s : string) : bool :=
  String.eqb s suffix
  || match s with
     | EmptyString => false
     | String _ s' => endswith suffix s'
     end.

(** [s.replace(old, new)]: every non-overlapping occurrence of [old], found
    from the left, is replaced.  [skip] counts the characters of an
    occurrence that are still to be dropped. *)
Fixpoint replace_go (old new : string) (skip : nat) (s : string) : string :=
  match skip with
  | S k =>
      match s with
      | String _ s' => replace_go old new k s'
      | EmptyString => EmptyString
      end
  | O =>
      if String.prefix old s then
        new +:+ match s with
                | String c s' =>
                    match String.length old with
                    | O => String c (replace_go old new O s')
                    | S k => replace_go old new k s'
                    end
                | EmptyString => EmptyString
                end
      else
        match s with
        | String c s' => String c (replace_go old new O s')
        | EmptyString => EmptyString
        end
  end.

Definition replace (old new s : string) : string := replace_go old new O s.

(** [sep.join(parts)] *)
Fixpoint join (sep : string) (parts : list string) : string :=
  match parts with
  | [] => EmptyString
  | [p] => p
  | p :: ps => p +:+ sep +:+ join sep ps
  end.

(** [s.split('\n')]: the pieces between line feeds, never an empty list. *)
Fixpoint lines (s : string) : list string :=
  match s with
  | EmptyString => [EmptyString]
  | String c s' =>
      if is_nl c then EmptyString :: lines s'
      else match lines s' with
           | l :: ls => String c l :: ls
           | [] => [String c EmptyString]
           end
  end.

(** [s.rstrip('/')] *)
Fixpoint rstrip_slash (s : string) : string :=
  match s with
  | EmptyString => EmptyString
  | String c s' =>
      match rstrip_slash s' with
      | EmptyString => if Ascii.eqb c SLASH then EmptyString else String c EmptyString
      | r => String c r
      end
  end.

(** [(s[:i], s[i:])] for [i = s.rfind(sep) + 1]. *)
Fixpoint rcut (sep : ascii) (s : string) : string * string :=
  match s with
  | EmptyString => (EmptyString, EmptyString)
  | String c s' =>
      match rcut sep s' with
      | (EmptyString, t) =>
          if Ascii.eqb c sep then (String c EmptyString, s')
          else (EmptyString, String c t)
      | (h, t) => (String c h, t)
      end
  end.

Definition hex_digit (n : N) : ascii :=
  match n with
  | 0 => "0" | 1 => "1" | 2 => "2" | 3 => "3" | 4 => "4" | 5 => "5"
  | 6 => "6" | 7 => "7" | 8 => "8" | 9 => "9" | 10 => "a" | 11 => "b"
  | 12 => "c" | 13 => "d" | 14 => "e" | _ => "f"
  end%N%char.

(** [str.isprintable] on one code point below 256. *)
Definition printable (c : ascii) : bool :=
  let n := N_of_ascii c in
  ((32 <=? n) && (n <? 127) || (161 <=? n) && negb (n =? 173))%N.

Definition repr_char (quote c : ascii) : string :=
  if Ascii.eqb c quote || Ascii.eqb c BACKSLASH then String BACKSLASH (String c EmptyString)
  else if Ascii.eqb c "009" then "\t"
  else if Ascii.eqb c NL then "\n"
  else if Ascii.eqb c "013" then "\r"
  else if printable c then String c EmptyString
  else let n := N_of_ascii c in
       String BACKSLASH (String "x" (String (hex_digit (n / 16)) (String (hex_digit (n mod 16)) EmptyString))).

Fixpoint repr_body (quote : ascii) (s : string) : string :=
  match s with
  | EmptyString => EmptyString
  | String c s' => repr_char quote c +:+ repr_body quote s'
  end.

(** [repr(s)] *)
Definition repr (s : string) : string :=
  let quote :=
    if contains (String SQUOTE EmptyString) s && negb (contains (String DQUOTE EmptyString) s)
    then DQUOTE else SQUOTE in
  String quote (repr_body quote s +:+ String quote EmptyString).

(** [str(l)] for a list of strings *)
Definition repr_list (l : list string) : string :=
  "[" +:+ join ", " (map repr l) +:+ "]".

(** [str(n)] for an int *)
Definition of_int (n : Z) : string := pretty n.

End Str.

(** ** [posixpath] *)

Module PosixPath.

(** [os.path.split]: head and tail around the last slash; trailing slashes of
    the head are stripped unless the head consists of slashes only. *)
Definition split (p : string) : string * string :=
  let '(head, tail) := Str.rcut SLASH p in
  match Str.rstrip_slash head with
  | EmptyString => (head, tail)
  | stripped => (stripped, tail)
  end.

Definition dirname (p : string) : string := fst (split p).

Definition basename (p : string) : string := snd (Str.rcut SLASH p).

(** [os.path.join(a, b)] *)
Definition join (a b : string) : string :=
  if Str.startswith "/" b then b
  else match a with
       | EmptyString => b
       | _ => if Str.endswith "/" a then a +:+ b else a +:+ "/" +:+ b
       end.

Fixpoint all_dots (s : string) : bool :=
  match s with
  | EmptyString => true
  | String c s' => Ascii.eqb c DOT && all_dots s'
  end.

Fixpoint drop_last (s : string) : string :=
  match s with
  | EmptyString => EmptyString
  | String c EmptyString => EmptyString
  | String c s' => String c (drop_last s')
  end.

(** [os.path.splitext]: the extension starts at the last dot of the last
    path component, unless only dots precede it there. *)
Definition splitext (p : string) : string * string :=
  let '(dir, name) := Str.rcut SLASH p in
  let '(upto_dot, after_dot) := Str.rcut DOT name in
  let stem := drop_last upto_dot in
  if all_dots stem then (p, EmptyString)
  else (dir +:+ stem, String DOT after_dot).

End PosixPath.

(** ** The fragment of [re] used by the caption stripper *)

Module Re.

(** [^], [$] (both under [re.MULTILINE]), a literal character, and [.*]. *)
Inductive atom := Bol | Eol | Chr (c : ascii) | AnyStar.

Definition regex := list atom.

Fixpoint literal (s : string) : regex :=
  match s with
  | EmptyString => []
  | String c s' => Chr c :: literal s'
  end.

Definition at_eol (s : string) : bool :=
  match s with
  | EmptyString => true
  | String c _ => is_nl c
  end.

(** Backtracking match of [p] at the head of [s]; [bol] tells whether the
    position is the start of the text or follows a line feed.  The result is
    the length of the first match in priority order: [.*] is greedy, takes
    every character up to the next line feed and gives them back one by
    one. *)
Fixpoint match_here (p : regex) : bool -> string -> option nat :=
  match p with
  | [] => fun _ _ => Some O
  | Bol :: p' => fun bol s => if bol then match_here p' bol s else None
  | Eol :: p' => fun bol s => if at_eol s then match_here p' bol s else None
  | Chr c :: p' => fun _ s =>
      match s with
      | String d s' =>
          if Ascii.eqb c d then S <$> match_here p' (is_nl d) s' else None
      | EmptyString => None
      end
  | AnyStar :: p' =>
      fix star (bol : bool) (s : string) {struct s} : option nat :=
        match s with
        | String d s' =>
            if is_nl d then match_here p' bol s
            else match star false s' with
                 | Some n => Some (S n)
                 | None => match_here p' bol s
                 end
        | EmptyString => match_here p' bol s
        end
  end.

(** [re.sub(p, repl, s)]: the text is scanned from the left; where [p]
    matches, the match is replaced and the scan resumes behind it, elsewhere
    one character is copied.  [skip] counts the characters of the current
    match that are still to be dropped. *)
Fixpoint sub_go (p : regex) (repl : string) (bol : bool) (skip : nat) (s : string) : string :=
  match skip with
  | S k =>
      match s with
      | String c s' => sub_go p repl (is_nl c) k s'
      | EmptyString => EmptyString
      end
  | O =>
      match match_here p bol s with
      | Some (S n) =>
          repl +:+ match s with
                   | String c s' => sub_go p repl (is_nl c) n s'
                   | EmptyString => EmptyString
                   end
      | Some O =>
          repl +:+ match s with
                   | String c s' => String c (sub_go p repl (is_nl c) O s')
                   | EmptyString => EmptyString
                   end
      | None =>
          match s with
          | String c s' => String c (sub_go p repl (is_nl c) O s')
          | EmptyString => EmptyString
          end
      end
  end.

Definition sub (p : regex) (repl s : string) : string := sub_go p repl true O s.

End Re.

(** ** The world: file store, console, spawned commands *)

Inductive node := File (text : string) | Dir.

Record proc := { returncode : Z; stdout : string; stderr : string }.

Record world := {
  fs : gmap string node;
  console : list string;
  spawned : list (list string)
}.

Inductive exn :=
| RuntimeError (msg : string)
| FileNotFoundError (msg : string)
| IsADirectoryError (msg : string)
| NotADirectoryError (msg : string)
| FileExistsError (msg : string)
| CalledProcessError (cmd : list string) (code : Z) (out err : string).

Inductive outcome (A : Type) := Ok (a : A) | Raise (e : exn).
Arguments Ok {A} a.
Arguments Raise {A} e.

(** A computation: the outcome and the world it leaves. *)
Definition M (A : Type) : Type := world -> outcome A * world.

Definition ret {A} (a : A) : M A := fun w => (Ok a, w).

Definition raise {A} (e : exn) : M A := fun w => (Raise e, w).

Definition bind {A B} (m : M A) (k : A -> M B) : M B :=
  fun w =>
    match m w with
    | (Ok a, w') => k a w'
    | (Raise e, w') => (Raise e, w')
    end.

(** [try: m  except <the class handler accepts> as e: handler e] *)
Definition try_except {A} (m : M A) (handler : exn -> option (M A)) : M A :=
  fun w =>
    match m w with
    | (Ok a, w') => (Ok a, w')
    | (Raise e, w') =>
        match handler e with
        | Some h => h w'
        | None => (Raise e, w')
        end
    end.

Notation "x <- m ;; k" := (bind m (fun x => k))
  (at level 100, m at next level, right associativity).
Notation "m ;; k" := (bind m (fun _ => k))
  (at level 100, right associativity).

Definition set_fs (f : gmap string node) (w : world) : world :=
  {| fs := f; console := console w; spawned := spawned w |}.

(** [print(s)] *)
Definition print (s : string) : M unit :=
  fun w => (Ok tt, {| fs := fs w; console := console w ++ [s]; spawned := spawned w |}).

Definition oserror (errno : string) (strerror : string) (path : string) : string :=
  "[Errno " +:+ errno +:+ "] " +:+ strerror +:+ ": " +:+ Str.repr path.

Definition no_such_file (path : string) : exn :=
  FileNotFoundError (oserror "2" "No such file or directory" path).
Definition is_a_directory (path : string) : exn :=
  IsADirectoryError (oserror "21" "Is a directory" path).
Definition not_a_directory (path : string) : exn :=
  NotADirectoryError (oserror "20" "Not a directory" path).
Definition file_exists (path : string) : exn :=
  FileExistsError (oserror "17" "File exists" path).

(** The prefixes of [p] that end just before a slash of [p], shortest
    first. *)
Fixpoint cuts (p : string) : list string :=
  match p with
  | EmptyString => []
  | String c p' =>
      (if Ascii.eqb c SLASH then [EmptyString] else []) ++ map (String c) (cuts p')
  end.

Definition nonempty (s : string) : bool :=
  match s with
  | EmptyString => false
  | _ => true
  end.

(** The directories that the lookup of [p] passes through, outermost
    first. *)
Definition ancestors (p : string) : list string :=
  List.filter nonempty (map Str.rstrip_slash (cuts p)).

(** What stops the lookup of a path through [dirs]: the first of them that
    is a regular file ([ENOTDIR]) or is not there ([ENOENT]). *)
Fixpoint blocked (f : gmap string node) (dirs : list string) (path : string) : option exn :=
  match dirs with
  | [] => None
  | d :: rest =>
      match f !! d with
      | Some Dir => blocked f rest path
      | Some (File _) => Some (not_a_directory path)
      | None => Some (no_such_file path)
      end
  end.

(** The error of looking up a path at which nothing is. *)
Definition absent_error (f : gmap string node) (path : string) : exn :=
  match blocked f (ancestors path) path with
  | Some e => e
  | None => no_such_file path
  end.

(** [os.path.exists(path)] *)
Definition os_path_exists (path : string) : M bool :=
  fun w => (Ok (bool_decide (is_Some (fs w !! path))), w).

(** [with open(path, 'r') as file: file.read()] *)
Definition read_text (path : string) : M string :=
  fun w =>
    match fs w !! path with
    | Some (File text) => (Ok text, w)
    | Some Dir => (Raise (is_a_directory path), w)
    | None => (Raise (absent_error (fs w) path), w)
    end.

(** [with open(path, 'w') as file: file.write(text)]; the program only
    rewrites a file that it has just read. *)
Definition write_text (path text : string) : M unit :=
  fun w =>
    match fs w !! path with
    | Some Dir => (Raise (is_a_directory path), w)
    | _ => (Ok tt, set_fs (<[path := File text]> (fs w)) w)
    end.

(** [os.remove(path)] *)
Definition os_remove (path : string) : M unit :=
  fun w =>
    match fs w !! path with
    | Some (File _) => (Ok tt, set_fs (delete path (fs w)) w)
    | Some Dir => (Raise (is_a_directory path), w)
    | None => (Raise (absent_error (fs w) path), w)
    end.

(** [os.mkdir(path)]: the path must be free and every directory above it
    must be there. *)
Definition os_mkdir (path : string) : M unit :=
  fun w =>
    match path with
    | EmptyString => (Raise (no_such_file path), w)
    | _ =>
        match fs w !! path, Str.rstrip_slash path with
        | Some _, _ | _, EmptyString => (Raise (file_exists path), w)
        | None, stripped =>
            match blocked (fs w) (ancestors stripped) path with
            | Some e => (Raise e, w)
            | None => (Ok tt, set_fs (<[path := Dir]> (fs w)) w)
            end
        end
    end.

(** The [head, tail] that [os.makedirs] works with: [os.path.split(name)],
    taken once more on the head when the tail is empty. *)
Definition makedirs_parts (name : string) : string * string :=
  let '(head, tail) := PosixPath.split name in
  match tail with
  | EmptyString => PosixPath.split head
  | _ => (head, tail)
  end.

(** [except FileExistsError: pass] *)
Definition pass_file_exists (e : exn) : option (M unit) :=
  match e with
  | FileExistsError _ => Some (ret tt)
  | _ => None
  end.

(** [os.makedirs(name)]: the missing directories above [name] are made
    first, by a call on the head; [fuel] bounds the depth of these calls. *)
Fixpoint makedirs_go (fuel : nat) (name : string) : M unit :=
  let '(head, tail) := makedirs_parts name in
  if nonempty head && nonempty tail then
    head_present <- os_path_exists head ;;
    if negb head_present then
      match fuel with
      | O => os_mkdir name
      | S fuel' =>
          try_except (makedirs_go fuel' head) pass_file_exists ;;
          if String.eqb tail "." then ret tt else os_mkdir name
      end
    else os_mkdir name
  else os_mkdir name.

(** The head of a call is shorter than its name, so the length of the name
    is fuel enough. *)
Definition os_makedirs (name : string) : M unit :=
  makedirs_go (String.length name) name.

(** The name under which [entry] is listed in directory [dir], if it lies
    directly in it: [os.path.join(dir, name)] gives the entry back. *)
Definition child_name (dir entry : string) : option string :=
  let name := PosixPath.basename entry in
  match name with
  | EmptyString => None
  | _ => if String.eqb (PosixPath.join dir name) entry then Some name else None
  end.

(** The names listed in [dir], in the order of the store. *)
Definition entries_of (f : gmap string node) (dir : string) : list string :=
  omap (child_name dir) (fst <$> map_to_list f).

(** What the platform supplies: the effect of running a command line on the
    file store with its exit status and captured output, the names of the
    signals ([signal.Signals]), and the order in which a directory is
    listed, which is some arrangement of its entries. *)
Class Platform := {
  run_tool : list string -> gmap string node -> proc * gmap string node;
  signal_name : Z -> option string;
  listdir_order : gmap string node -> string -> list string;
  listdir_order_perm :
    forall f dir, Permutation (listdir_order f dir) (entries_of f dir)
}.

(** A listing in the order of the store. *)
Definition entries_of_perm (f : gmap string node) (dir : string)
  : Permutation (entries_of f dir) (entries_of f dir) :=
  Permutation_refl (entries_of f dir).

(** ** A demonstration platform

    A stand-in for the two tools, used to run the program on concrete
    inputs.  Its compiler rejects a source whose braces are unbalanced and
    otherwise leaves a document, a log and an auxiliary file named after the
    source; its rasterizer writes the image when the document is there. *)

Fixpoint balanced (depth : nat) (s : string) : bool :=
  match s with
  | EmptyString => Nat.eqb depth 0
  | String c s' =>
      if Ascii.eqb c "{" then balanced (S depth) s'
      else if Ascii.eqb c "}" then
        match depth with
        | O => false
        | S d => balanced d s'
        end
      else balanced depth s'
  end.

Definition demo_pdflatex (dir tex : string) (f : gmap string node) : proc * gmap string node :=
  match f !! tex with
  | Some (File text) =>
      if balanced 0 text then
        let stem := fst (PosixPath.splitext (PosixPath.basename tex)) in
        ({| returncode := 0; stdout := "Output written"; stderr := EmptyString |},
         <[PosixPath.join dir (stem +:+ ".aux") := File "aux"]>
           (<[PosixPath.join dir (stem +:+ ".log") := File "log"]>
              (<[PosixPath.join dir (stem +:+ ".pdf") := File "pdf"]> f)))
      else
        ({| returncode := 1;
            stdout := "! Missing } inserted.";
            stderr := "pdflatex: fatal error" |}, f)
  | _ => ({| returncode := 1; stdout := EmptyString; stderr := "! I can't find file." |}, f)
  end.

Definition demo_magick (pdf image : string) (f : gmap string node) : proc * gmap string node :=
  match f !! pdf with
  | Some (File _) =>
      ({| returncode := 0; stdout := EmptyString; stderr := EmptyString |},
       <[image := File "png"]> f)
  | _ => ({| returncode := 1; stdout := EmptyString; stderr := "magick: unable to open image" |}, f)
  end.

Definition demo_run (cmd : list string) (f : gmap string node) : proc * gmap string node :=
  match cmd with
  | ["pdflatex"; "-output-directory"; dir; tex] => demo_pdflatex dir tex f
  | "magick" :: "-density" :: _ :: pdf :: rest => demo_magick pdf (List.last rest EmptyString) f
  | _ => ({| returncode := 127; stdout := EmptyString; stderr := "command not found" |}, f)
  end.

Definition demo_platform : Platform :=
  {| run_tool := demo_run;
     signal_name := fun n => if (n =? 9)%Z then Some "SIGKILL" else None;
     listdir_order := entries_of;
     listdir_order_perm := entries_of_perm |}.

Definition world_of (f : gmap string node) : world :=
  {| fs := f; console := []; spawned := [] |}.

(** ** The program *)

Section Program.

Context {P : Platform}.

(** [str(e)] *)
Definition exn_str (e : exn) : string :=
  match e with
  | RuntimeError msg | FileNotFoundError msg | IsADirectoryError msg
  | NotADirectoryError msg | FileExistsError msg => msg
  | CalledProcessError cmd code _ _ =>
      if (code <? 0)%Z then
        match signal_name (- code) with
        | Some name =>
            "Command '" +:+ Str.repr_list cmd +:+ "' died with <Signals." +:+ name
            +:+ ": " +:+ Str.of_int (- code) +:+ ">."
        | None =>
            "Command '" +:+ Str.repr_list cmd +:+ "' died with unknown signal "
            +:+ Str.of_int (- code) +:+ "."
        end
      else
        "Command '" +:+ Str.repr_list cmd +:+ "' returned non-zero exit status "
        +:+ Str.of_int code +:+ "."
  end.

(** [os.listdir(dir)] *)
Definition os_listdir (dir : string) : M (list string) :=
  fun w =>
    match fs w !! dir with
    | Some Dir => (Ok (listdir_order (fs w) dir), w)
    | Some (File _) => (Raise (not_a_directory dir), w)
    | None => (Raise (absent_error (fs w) dir), w)
    end.

(** [subprocess.run(cmd, check=True, stdout=PIPE, stderr=PIPE)] *)
Definition subprocess_run (cmd : list string) : M proc :=
  fun w =>
    let '(p, f) := run_tool cmd (fs w) in
    let w' := {| fs := f; console := console w; spawned := spawned w ++ [cmd] |} in
    if (returncode p =? 0)%Z then (Ok p, w')
    else (Raise (CalledProcessError cmd (returncode p) (stdout p) (stderr p)), w').

(** [r'^.*\\caption.*$'] *)
Definition caption_re : Re.regex :=
  [Re.Bol; Re.AnyStar] ++ Re.literal "\caption" ++ [Re.AnyStar; Re.Eol].

Definition remove_captions_from_tex (tex_file : string) : M unit :=
  content <- read_text tex_file ;;
  let content := Re.sub caption_re EmptyString content in
  write_text tex_file content.

Definition begin_document : string := "\begin{document}".

Definition preamble : string :=
  "\documentclass{article}" +:+ nl +:+
  "\usepackage{dcolumn}" +:+ nl +:+
  "\usepackage{float}" +:+ nl +:+
  "\usepackage{booktabs}" +:+ nl +:+
  "\usepackage{graphicx}" +:+ nl +:+
  "\pagestyle{empty}" +:+ nl +:+
  "\begin{document}" +:+ nl.

Definition end_document : string := nl +:+ "\end{document}" +:+ nl.

Definition ensure_latex_document_structure (tex_file : string) : M unit :=
  content <- read_text tex_file ;;
  if negb (Str.contains begin_document content) then
    print ("Adding document structure to " +:+ tex_file) ;;
    let content := preamble +:+ content +:+ end_document in
    write_text tex_file content
  else
    print ("Document structure already exists in " +:+ tex_file).

Definition pdflatex_cmd (tex_dir tex_file : string) : list string :=
  ["pdflatex"; "-output-directory"; tex_dir; tex_file].

Definition magick_cmd (density : Z) (pdf_file : string) (quality : Z) (output_image : string)
  : list string :=
  ["magick"; "-density"; Str.of_int density; pdf_file;
   "-background"; "white"; "-alpha"; "remove"; "-alpha"; "off";
   "-trim";
   "-quality"; Str.of_int quality; output_image].

(** [except subprocess.CalledProcessError as e: print(e.stderr.decode()); raise RuntimeError(f"{what}: {e}")] *)
Definition on_called_process_error {A} (what : string) (e : exn) : option (M A) :=
  match e with
  | CalledProcessError _ _ _ err =>
      Some (print err ;; raise (RuntimeError (what +:+ ": " +:+ exn_str e)))
  | _ => None
  end.

Definition pdf_file_of (tex_file : string) : string :=
  PosixPath.join (PosixPath.dirname tex_file)
    (Str.replace ".tex" ".pdf" (PosixPath.basename tex_file)).

Definition aux_files_of (tex_file : string) : list string :=
  let base_name := fst (PosixPath.splitext (PosixPath.basename tex_file)) in
  [base_name +:+ ".pdf"; base_name +:+ ".log"; base_name +:+ ".aux"].

(** [for aux_file in aux_files: ...] *)
Fixpoint remove_aux_files (tex_dir : string) (aux_files : list string) : M unit :=
  match aux_files with
  | [] => ret tt
  | aux_file :: rest =>
      let aux_file_path := PosixPath.join tex_dir aux_file in
      present <- os_path_exists aux_file_path ;;
      (if present then os_remove aux_file_path else ret tt) ;;
      remove_aux_files tex_dir rest
  end.

Definition tex_to_image (tex_file output_image : string) (density quality : Z) : M string :=
  remove_captions_from_tex tex_file ;;
  ensure_latex_document_structure tex_file ;;
  let tex_dir := PosixPath.dirname tex_file in
  try_except
    (result <- subprocess_run (pdflatex_cmd tex_dir tex_file) ;;
     print (stdout result))
    (on_called_process_error "Error compiling LaTeX file") ;;
  let pdf_file := pdf_file_of tex_file in
  pdf_present <- os_path_exists pdf_file ;;
  (if negb pdf_present
   then raise (FileNotFoundError ("PDF file " +:+ pdf_file +:+ " was not created."))
   else ret tt) ;;
  try_except
    (result <- subprocess_run (magick_cmd density pdf_file quality output_image) ;;
     print (stdout result))
    (on_called_process_error "Error converting PDF to image") ;;
  image_present <- os_path_exists output_image ;;
  (if negb image_present
   then raise (FileNotFoundError ("Image file " +:+ output_image +:+ " was not created."))
   else ret tt) ;;
  remove_aux_files tex_dir (aux_files_of tex_file) ;;
  ret output_image.

(** [for x in l: body x] *)
Fixpoint for_each {A} (l : list A) (body : A -> M unit) : M unit :=
  match l with
  | [] => ret tt
  | x :: rest => body x ;; for_each rest body
  end.

Definition output_image_path_of (output_folder file_name : string) : string :=
  PosixPath.join output_folder (Str.replace ".tex" ".png" file_name).

(** The body of the loop of [convert_all_tex_to_images]. *)
Definition convert_one (input_folder output_folder : string) (density quality : Z)
    (file_name : string) : M unit :=
  if Str.endswith ".tex" file_name then
    let input_file := PosixPath.join input_folder file_name in
    let output_image_path := output_image_path_of output_folder file_name in
    try_except
      (image_path <- tex_to_image input_file output_image_path density quality ;;
       print ("Converted: " +:+ input_file +:+ " to " +:+ image_path))
      (fun e => Some (print ("Error processing " +:+ file_name +:+ ": " +:+ exn_str e)))
  else ret tt.

Definition convert_all_tex_to_images (input_folder output_folder : string)
    (density quality : Z) : M unit :=
  present <- os_path_exists output_folder ;;
  (if negb present then os_makedirs output_folder else ret tt) ;;
  file_names <- os_listdir input_folder ;;
  for_each file_names (convert_one input_folder output_folder density quality).

End Program.

(** ** Vocabulary of the statements *)

Fixpoint nl_free (s : string) : bool :=
  match s with
  | EmptyString => true
  | String c s' => negb (is_nl c) && nl_free s'
  end.

(** What the caption stripper makes of one line, for the directive [lit]. *)
Definition blank (lit l : string) : string :=
  if Str.contains lit l then EmptyString else l.

Definition caption : string := "\caption".

Definition line_count (s : string) : nat := length (Str.lines s).

(** The number of lines that contain the caption directive. *)
Definition caption_line_count (s : string) : nat :=
  length (List.filter (Str.contains caption) (Str.lines s)).

Definition is_empty_line (l : string) : bool := String.eqb l EmptyString.

Definition empty_line_count (s : string) : nat :=
  length (List.filter is_empty_line (Str.lines s)).

(** The two preparation steps at the head of [tex_to_image]. *)
Definition prepare (tex_file : string) : M unit :=
  remove_captions_from_tex tex_file ;;
  ensure_latex_document_structure tex_file.



(** The first statement of [convert_all_tex_to_images]: the output folder
    is made when nothing is at its path. *)
Definition make_output_folder (output_folder : string) : M unit :=
  present <- os_path_exists output_folder ;;
  if negb present then os_makedirs output_folder else ret tt.

(** A computation that prints nothing, spawns nothing and leaves every path
    as it was or, where nothing was, with a new directory. *)
Definition only_adds_dirs {A} (m : M A) : Prop :=
  forall w,
    console (snd (m w)) = console w
    /\ spawned (snd (m w)) = spawned w
    /\ forall p,
         fs (snd (m w)) !! p = fs w !! p
         \/ (fs w !! p = None /\ fs (snd (m w)) !! p = Some Dir).

(** What the turn of one listed name may spawn in the batch. *)
Definition spawns_of_name (input_folder output_folder : string) (density quality : Z)
    (file_name : string) (l : list (list string)) : Prop :=
  if Str.endswith ".tex" file_name then
    let input_file := PosixPath.join input_folder file_name in
    let compile_cmd := pdflatex_cmd (PosixPath.dirname input_file) input_file in
    let render_cmd :=
      magick_cmd density (pdf_file_of input_file) quality
        (output_image_path_of output_folder file_name) in
    l = [] \/ l = [compile_cmd] \/ l = [compile_cmd; render_cmd]
  else l = [].

(** A computation that never takes a line off the console. *)
Definition grows {A} (m : M A) : Prop :=
  forall w, console w `prefix_of` console (snd (m w)).

Fixpoint has_char (c : ascii) (s : string) : bool :=
  match s with
  | EmptyString => false
  | String d s' => Ascii.eqb d c || has_char c s'
  end.


(** The text of the file at [path], if there is one. *)
Definition content_of (w : world) (path : string) : option string :=
  match fs w !! path with
  | Some (File text) => Some text
  | _ => None
  end.

(** ** Sample inputs *)

(** A two-line text whose first line holds a caption. *)
Definition caption_text : string := "\caption{Results}" +:+ nl +:+ "x".

Definition caption_world : world := world_of {[ "t.tex" := File caption_text ]}.

(** A text that brings its own document environment. *)
Definition structured_text : string :=
  "\documentclass{article}" +:+ nl +:+ "\begin{document}" +:+ nl +:+ "x" +:+ nl
  +:+ "\end{document}" +:+ nl.

Definition structured_world : world := world_of {[ "t.tex" := File structured_text ]}.

(** A directory with one source that compiles and one whose braces are
    unbalanced. *)
Definition batch_world : world :=
  world_of (<["in" := Dir]>
            (<["in/a.tex" := File ("\caption{A}" +:+ nl +:+ "\textbf{a}")]>
             (<["in/z.tex" := File "\textbf{z"]> ∅))).

(** A directory whose only source has [.tex] inside its name as well. *)
Definition texture_world : world :=
  world_of (<["in" := Dir]> (<["in/report.texture.tex" := File "\textbf{r}"]> ∅)).

(** Tools that report success and write nothing. *)
Definition idle_platform : Platform :=
  {| run_tool := fun _ f =>
       ({| returncode := 0; stdout := EmptyString; stderr := EmptyString |}, f);
     signal_name := fun _ => None;
     listdir_order := entries_of;
     listdir_order_perm := entries_of_perm |}.

(** A directory that still holds the document of an earlier run. *)
Definition stale_world : world :=
  world_of (<["in" := Dir]>
            (<["in/a.tex" := File "\textbf{a}"]>
             (<["in/a.pdf" := File "pdf"]> ∅))).

(** The lines of the fixed preamble. *)
Definition preamble_lines : list string :=
  ["\documentclass{article}"; "\usepackage{dcolumn}"; "\usepackage{float}";
   "\usepackage{booktabs}"; "\usepackage{graphicx}"; "\pagestyle{empty}";
   "\begin{document}"].

(** A computation that spawns exactly [full] when it returns and a prefix
    of [full] when it raises. *)
Definition traces {A} (m : M A) (full : list (list string)) : Prop :=
  forall w,
    match fst (m w) with
    | Ok _ => spawned (snd (m w)) = spawned w ++ full
    | Raise _ => exists l, l `prefix_of` full /\ spawned (snd (m w)) = spawned w ++ l
    end.


(** A computation that spawns nothing, however it ends. *)
Definition quiet {A} (m : M A) : Prop :=
  forall w, spawned (snd (m w)) = spawned w.

(** The sample compiler with a rasterizer that always fails. *)
Definition failing_magick_platform : Platform :=
  {| run_tool := fun cmd f =>
       match cmd with
       | "magick" :: _ =>
           ({| returncode := 1; stdout := EmptyString;
               stderr := "magick: no decode delegate" |}, f)
       | _ => demo_run cmd f
       end;
     signal_name := fun _ => None;
     listdir_order := entries_of;
     listdir_order_perm := entries_of_perm |}.

(** A source whose name has no [.tex] in it. *)
Definition latex_world : world := world_of {[ "notes.latex" := File "\textbf{n}" ]}.

(** A directory without any source. *)
Definition plain_world : world :=
  world_of (<["in" := Dir]> (<["in/readme.md" := File "r"]> ∅)).


(** A source named [a.tex.tex] beside a document [a.pdf.pdf] of unknown
    origin. *)
Definition double_tex_world : world :=
  world_of (<["in" := Dir]>
            (<["in/a.tex.tex" := File "\textbf{a}"]>
             (<["in/a.pdf.pdf" := File "pdf"]> ∅))).

(** * Properties *)

#[local] Arguments String.append !_ _ /.

(** ** The runtime model on examples *)

Example replace_every_occurrence :
  Str.replace ".tex" ".png" "a.tex.tex" = "a.png.png".
Proof. reflexivity. Qed.

Example split_lines :
  Str.lines ("a" +:+ nl +:+ nl +:+ "b" +:+ nl) = ["a"; EmptyString; "b"; EmptyString].
Proof. reflexivity. Qed.

Example repr_of_command :
  Str.repr_list ["pdflatex"; "a\b"] = "['pdflatex', 'a\\b']"
  /\ Str.repr "it's" = String DQUOTE ("it's" +:+ String DQUOTE EmptyString).
Proof. split; reflexivity. Qed.

Example split_path :
  PosixPath.split "dir/sub/a.tex" = ("dir/sub", "a.tex")
  /\ PosixPath.split "a.tex" = (EmptyString, "a.tex")
  /\ PosixPath.split "/a.tex" = ("/", "a.tex").
Proof. repeat split; reflexivity. Qed.

Example split_extension :
  PosixPath.splitext "a.b.tex" = ("a.b", ".tex")
  /\ PosixPath.splitext ".tex" = (".tex", EmptyString)
  /\ PosixPath.splitext "a" = ("a", EmptyString).
Proof. repeat split; reflexivity. Qed.

Example join_paths :
  PosixPath.join "in" "a.tex" = "in/a.tex"
  /\ PosixPath.join "in/" "a.tex" = "in/a.tex"
  /\ PosixPath.join EmptyString "a.tex" = "a.tex"
  /\ PosixPath.join "in" "/a.tex" = "/a.tex".
Proof. repeat split; reflexivity. Qed.

(** [re.sub('.*', '-', 'ab\nc', flags=re.M)] gives ['--\n--']: after a match
    that is not empty, the empty match at its end is replaced too. *)
Example sub_greedy :
  Re.sub [Re.AnyStar] "-" ("ab" +:+ nl +:+ "c") = "--" +:+ nl +:+ "--".
Proof. reflexivity. Qed.

Example sub_caption :
  Re.sub caption_re EmptyString
    ("x" +:+ nl +:+ "  \caption{T} % c" +:+ nl +:+ "\captions" +:+ nl +:+ "y")
  = "x" +:+ nl +:+ nl +:+ nl +:+ "y".
Proof. reflexivity. Qed.

(** [os.makedirs('build/images')] makes [build] as well; it raises for the
    empty path and below a regular file. *)
Example makedirs_cases :
  fs (snd (os_makedirs "build/images" plain_world)) !! "build" = Some Dir
  /\ fs (snd (os_makedirs "build/images" plain_world)) !! "build/images" = Some Dir
  /\ fst (os_makedirs EmptyString plain_world)
     = Raise (FileNotFoundError "[Errno 2] No such file or directory: ''")
  /\ fst (os_makedirs "in/readme.md/out" plain_world)
     = Raise (NotADirectoryError "[Errno 20] Not a directory: 'in/readme.md/out'")
  /\ fst (os_makedirs "in" plain_world)
     = Raise (FileExistsError "[Errno 17] File exists: 'in'").
Proof. repeat split; vm_compute; reflexivity. Qed.

(** [open('in/readme.md/a.tex')] fails below a regular file with
    [ENOTDIR], [open('in/a.tex')] on a missing file with [ENOENT]. *)
Example open_errors :
  fst (read_text "in/readme.md/a.tex" plain_world)
  = Raise (NotADirectoryError "[Errno 20] Not a directory: 'in/readme.md/a.tex'")
  /\ fst (read_text "in/a.tex" plain_world)
     = Raise (FileNotFoundError "[Errno 2] No such file or directory: 'in/a.tex'")
  /\ fst (read_text "in" plain_world)
     = Raise (IsADirectoryError "[Errno 21] Is a directory: 'in'").
Proof. repeat split; vm_compute; reflexivity. Qed.

(** With the input folder missing and the output folder below it, making
    the output folder makes the input folder, and the batch returns; with
    the output folder below a new directory whose name ends in [.tex], that
    directory is listed and reported. *)
Example batch_makes_its_input :
  convert_all_tex_to_images (P:=demo_platform) "in" "in/out" 300 90 caption_world
  = (Ok tt, snd (os_makedirs "in/out" caption_world))
  /\ console (snd (convert_all_tex_to_images (P:=demo_platform) "in" "in/new.tex/out"
                     300 90 plain_world))
     = ["Error processing new.tex: [Errno 21] Is a directory: 'in/new.tex'"].
Proof. split; vm_compute; reflexivity. Qed.

(** ** Strings *)

Lemma str_app_empty_r (s : string) : s +:+ EmptyString = s.
Proof. induction s as [|c s IH]; simpl; [reflexivity | now rewrite IH]. Qed.

Lemma str_app_assoc (a b c : string) : (a +:+ b) +:+ c = a +:+ (b +:+ c).
Proof. induction a as [|x a IH]; simpl; [reflexivity | now rewrite IH]. Qed.

Lemma str_length_app (a b : string) :
  String.length (a +:+ b) = String.length a + String.length b.
Proof. induction a as [|x a IH]; simpl; [reflexivity | now rewrite IH]. Qed.

Lemma prefix_app (a r : string) : String.prefix a (a +:+ r) = true.
Proof.
  induction a as [|x a IH]; simpl.
  - now destruct r.
  - destruct (ascii_dec x x); [exact IH | congruence].
Qed.

Lemma prefix_refl (a : string) : String.prefix a a = true.
Proof. rewrite <- (str_app_empty_r a) at 2. apply prefix_app. Qed.

Lemma prefix_inv (a s : string) :
  String.prefix a s = true -> exists r, s = a +:+ r.
Proof.
  revert s; induction a as [|x a IH]; intros s H.
  - now exists s.
  - destruct s as [|y s]; simpl in H; [discriminate|].
    destruct (ascii_dec x y) as [->|]; [|discriminate].
    destruct (IH _ H) as [r ->]. now exists r.
Qed.

Lemma contains_intro (n a b : string) : Str.contains n (a +:+ n +:+ b) = true.
Proof.
  induction a as [|x a IH].
  - simpl. destruct n; simpl.
    + now destruct b.
    + rewrite prefix_app. destruct (ascii_dec a a); [reflexivity | congruence].
  - change (String x a +:+ n +:+ b) with (String x (a +:+ n +:+ b)).
    cbn [Str.contains]. rewrite IH. apply orb_true_r.
Qed.

Lemma contains_inv (n h : string) :
  Str.contains n h = true -> exists a b, h = a +:+ n +:+ b.
Proof.
  induction h as [|x h IH]; cbn [Str.contains]; intros H.
  - rewrite orb_false_r in H. destruct (prefix_inv _ _ H) as [r Hr].
    exists EmptyString, r. exact Hr.
  - apply orb_true_iff in H as [H|H].
    + destruct (prefix_inv _ _ H) as [r Hr]. exists EmptyString, r. exact Hr.
    + destruct (IH H) as (a & b & ->). now exists (String x a), b.
Qed.

(** ** Replacing an extension *)

Lemma replace_go_skip (old new s r : string) :
  Str.replace_go old new (String.length s) (s +:+ r) = Str.replace_go old new 0 r.
Proof. induction s as [|c s IH]; [reflexivity | exact IH]. Qed.

Lemma replace_go_empty (old new : string) :
  old <> EmptyString -> Str.replace_go old new 0 EmptyString = EmptyString.
Proof. intros H. destruct old; [congruence | reflexivity]. Qed.

(** When [old] occurs in [stem ++ old] at the end only, replacing it swaps
    the ending and keeps the stem. *)
Lemma replace_at_end (old new stem : string) :
  old <> EmptyString ->
  (forall a b, stem +:+ old = a +:+ old +:+ b -> b = EmptyString) ->
  Str.replace old new (stem +:+ old) = stem +:+ new.
Proof.
  intros Hold. unfold Str.replace. induction stem as [|c stem IH]; intros Honly.
  - destruct old as [|x old]; [congruence|].
    cbn [String.append Str.replace_go]. rewrite prefix_refl.
    cbn [String.length].
    pose proof (replace_go_skip (String x old) new old EmptyString) as Hskip.
    rewrite str_app_empty_r in Hskip. rewrite Hskip.
    cbn [Str.replace_go String.prefix]. apply str_app_empty_r.
  - change (String c stem +:+ old) with (String c (stem +:+ old)) in *.
    destruct (String.prefix old (String c (stem +:+ old))) eqn:Hp.
    + destruct (prefix_inv _ _ Hp) as [r Hr].
      pose proof (Honly EmptyString r Hr) as ->.
      apply (f_equal String.length) in Hr.
      rewrite str_app_empty_r in Hr. cbn [String.length] in Hr.
      rewrite str_length_app in Hr. lia.
    + cbn [Str.replace_go]. rewrite Hp. cbn [String.append]. f_equal.
      apply IH. intros a b Hab. apply (Honly (String c a) b).
      cbn [String.append]. now rewrite Hab.
Qed.

(** ** Paths *)

Lemma rcut_no_sep (sep : ascii) (t : string) :
  has_char sep t = false -> Str.rcut sep t = (EmptyString, t).
Proof.
  induction t as [|c t IH]; intros H; [reflexivity|].
  cbn [has_char] in H. apply orb_false_iff in H as [Hc Ht].
  cbn [Str.rcut]. now rewrite (IH Ht), Hc.
Qed.





Lemma drop_last_app (x y : string) :
  y <> EmptyString ->
  PosixPath.drop_last (x +:+ y) = x +:+ PosixPath.drop_last y.
Proof.
  intros Hy. induction x as [|c x IH]; [reflexivity|].
  cbn [String.append PosixPath.drop_last]. rewrite IH.
  destruct (x +:+ y) eqn:E; [|reflexivity].
  destruct x; [|discriminate E]. now destruct y.
Qed.

(** [.tex] occurs in [stem.tex] at the end only when it does not occur in
    the name cut by its last character. *)
Lemma tex_only_at_end (stem : string) :
  Str.contains ".tex" (stem +:+ ".te") = false ->
  forall a b, stem +:+ ".tex" = a +:+ ".tex" +:+ b -> b = EmptyString.
Proof.
  intros Hc a b H. destruct b as [|c b]; [reflexivity|]. exfalso.
  apply (f_equal PosixPath.drop_last) in H.
  rewrite !drop_last_app in H by discriminate.
  change (PosixPath.drop_last ".tex") with ".te" in H.
  rewrite H, contains_intro in Hc. discriminate Hc.
Qed.

Lemma has_char_app (c : ascii) (a b : string) :
  has_char c (a +:+ b) = has_char c a || has_char c b.
Proof.
  induction a as [|d a IH]; [reflexivity|].
  cbn [String.append has_char]. now rewrite IH, orb_assoc.
Qed.



(** Under the same condition the image name of the batch is the source name
    with its extension replaced. *)
Lemma output_image_path_simple (output_folder stem : string) :
  Str.contains ".tex" (stem +:+ ".te") = false ->
  output_image_path_of output_folder (stem +:+ ".tex")
  = PosixPath.join output_folder (stem +:+ ".png").
Proof.
  intros Honly. unfold output_image_path_of.
  now rewrite (replace_at_end ".tex" ".png" stem)
    by (discriminate || exact (tex_only_at_end stem Honly)).
Qed.

(** ** Lines *)

Lemma lines_nonempty (s : string) : Str.lines s <> [].
Proof.
  destruct s as [|c s]; simpl; [discriminate|].
  destruct (is_nl c); [discriminate|]. now destruct (Str.lines s).
Qed.

Lemma lines_nl_free (s : string) : Forall (fun l => nl_free l = true) (Str.lines s).
Proof.
  induction s as [|c s IH]; simpl.
  - now constructor.
  - destruct (is_nl c) eqn:Hc.
    + now constructor.
    + destruct (Str.lines s) as [|l ls]; constructor; simpl;
        try rewrite Hc; simpl; auto.
      * now inversion IH.
      * now inversion IH.
Qed.

Lemma join_cons2 (sep l l2 : string) (ls : list string) :
  Str.join sep (l :: l2 :: ls) = l +:+ sep +:+ Str.join sep (l2 :: ls).
Proof. reflexivity. Qed.

(** Splitting at line feeds and joining with line feeds are inverse. *)
Lemma join_lines (s : string) : Str.join nl (Str.lines s) = s.
Proof.
  induction s as [|c s IH]; [reflexivity|].
  cbn [Str.lines]. destruct (is_nl c) eqn:Hc.
  - pose proof (lines_nonempty s) as Hne.
    destruct (Str.lines s) as [|l ls] eqn:E; [congruence|].
    rewrite join_cons2, IH. simpl.
    apply Ascii.eqb_eq in Hc. now subst c.
  - pose proof (lines_nonempty s) as Hne.
    destruct (Str.lines s) as [|l ls]; [congruence|].
    destruct ls as [|l2 ls].
    + simpl in *. now rewrite IH.
    + rewrite join_cons2 in *. now rewrite <- IH.
Qed.

Lemma lines_app_nl (l rest : string) :
  nl_free l = true -> Str.lines (l +:+ nl +:+ rest) = l :: Str.lines rest.
Proof.
  induction l as [|c l IH]; intros H; simpl in *.
  - reflexivity.
  - apply andb_true_iff in H as [Hc Hl]. apply negb_true_iff in Hc.
    rewrite Hc. now rewrite (IH Hl).
Qed.

Lemma lines_single (l : string) : nl_free l = true -> Str.lines l = [l].
Proof.
  induction l as [|c l IH]; intros H; simpl in *; [reflexivity|].
  apply andb_true_iff in H as [Hc Hl]. apply negb_true_iff in Hc.
  rewrite Hc. now rewrite (IH Hl).
Qed.

Lemma lines_join (ls : list string) :
  ls <> [] -> Forall (fun l => nl_free l = true) ls ->
  Str.lines (Str.join nl ls) = ls.
Proof.
  induction ls as [|l ls IH]; intros Hne Hall; [congruence|].
  inversion Hall as [|? ? Hl Hls]; subst.
  destruct ls as [|l2 ls].
  - simpl. now apply lines_single.
  - rewrite join_cons2, lines_app_nl by assumption.
    f_equal. apply IH; [discriminate | assumption].
Qed.

(** A needle without line feed that starts inside a line ends inside it. *)
Lemma prefix_line (lit y r : string) :
  nl_free lit = true -> Re.at_eol r = true ->
  String.prefix lit (y +:+ r) = String.prefix lit y.
Proof.
  revert lit; induction y as [|d y IH]; intros lit Hlit Hr.
  - simpl. destruct lit as [|c lit]; [now destruct r|].
    simpl in Hlit. apply andb_true_iff in Hlit as [Hc _]. apply negb_true_iff in Hc.
    destruct r as [|e r]; [reflexivity|]. simpl in *.
    destruct (ascii_dec c e) as [->|]; [congruence | reflexivity].
  - destruct lit as [|c lit]; [reflexivity|]. simpl in *.
    apply andb_true_iff in Hlit as [_ Hlit].
    destruct (ascii_dec c d); [now apply IH | reflexivity].
Qed.

(** The first line of a text and what follows it. *)
Lemma lines_head (s l : string) (ls : list string) :
  Str.lines s = l :: ls ->
  exists r, s = l +:+ r /\ Re.at_eol r = true.
Proof.
  revert l ls; induction s as [|c s IH]; intros l ls H; simpl in H.
  - inversion H; subst. now exists EmptyString.
  - destruct (is_nl c) eqn:Hc.
    + inversion H; subst. exists (String c s). simpl. auto.
    + destruct (Str.lines s) as [|l' ls'] eqn:E.
      * now destruct (lines_nonempty s).
      * inversion H; subst. destruct (IH _ _ eq_refl) as (r & -> & Hr).
        now exists r.
Qed.

(** Membership of a needle without line feed is decided line by line. *)
Lemma contains_lines (lit s : string) :
  lit <> EmptyString -> nl_free lit = true ->
  Str.contains lit s = existsb (Str.contains lit) (Str.lines s).
Proof.
  intros Hne Hlit. induction s as [|c s IH].
  - simpl. now rewrite !orb_false_r.
  - cbn [Str.contains Str.lines]. destruct (is_nl c) eqn:Hc.
    + cbn [existsb]. rewrite <- IH.
      destruct lit as [|x lit]; [congruence|]. simpl.
      simpl in Hlit. apply andb_true_iff in Hlit as [Hx _]. apply negb_true_iff in Hx.
      destruct (ascii_dec x c) as [->|]; [congruence|reflexivity].
    + destruct (Str.lines s) as [|l ls] eqn:E.
      * now destruct (lines_nonempty s).
      * destruct (lines_head _ _ _ E) as (r & Hs & Hr).
        cbn [existsb Str.contains]. rewrite IH. cbn [existsb].
        rewrite Hs.
        change (String c (l +:+ r)) with (String c l +:+ r).
        rewrite (prefix_line lit (String c l) r Hlit Hr).
        now rewrite orb_assoc.
Qed.

(** ** The caption pattern, line by line *)

Lemma match_star_eol (b : bool) (y r : string) :
  nl_free y = true -> Re.at_eol r = true ->
  Re.match_here [Re.AnyStar; Re.Eol] b (y +:+ r) = Some (String.length y).
Proof.
  revert b; induction y as [|d y IH]; intros b Hy Hr.
  - destruct r as [|e r]; [reflexivity|].
    cbn [String.append Re.match_here Re.at_eol] in *. now rewrite Hr.
  - simpl in Hy. apply andb_true_iff in Hy as [Hd Hy]. apply negb_true_iff in Hd.
    change (String d y +:+ r) with (String d (y +:+ r)).
    simpl. rewrite Hd.
    specialize (IH false Hy Hr). simpl in IH. now rewrite IH.
Qed.

Lemma match_literal_fail (lit : string) (q : Re.regex) (b : bool) (s : string) :
  String.prefix lit s = false -> Re.match_here (Re.literal lit ++ q) b s = None.
Proof.
  revert b s; induction lit as [|c lit IH]; intros b s H.
  - now destruct s.
  - destruct s as [|d s]; [reflexivity|]. simpl in *.
    destruct (ascii_dec c d) as [->|Hne].
    + rewrite Ascii.eqb_refl. now rewrite IH.
    + apply Ascii.eqb_neq in Hne. now rewrite Hne.
Qed.

Lemma match_literal_line (lit : string) (b : bool) (y r : string) :
  nl_free y = true -> Re.at_eol r = true ->
  Re.match_here (Re.literal lit ++ [Re.AnyStar; Re.Eol]) b (lit +:+ y +:+ r)
  = Some (String.length lit + String.length y).
Proof.
  intros Hy Hr. revert b; induction lit as [|c lit IH]; intros b.
  - exact (match_star_eol b y r Hy Hr).
  - change (Re.literal (String c lit) ++ [Re.AnyStar; Re.Eol])
      with (Re.Chr c :: (Re.literal lit ++ [Re.AnyStar; Re.Eol])).
    change (String c lit +:+ y +:+ r) with (String c (lit +:+ y +:+ r)).
    cbn [Re.match_here]. rewrite Ascii.eqb_refl, IH. reflexivity.
Qed.

Section CaptionLine.

Variable lit : string.
Hypothesis lit_nonempty : lit <> EmptyString.
Hypothesis lit_nl_free : nl_free lit = true.

Let tail : Re.regex := Re.literal lit ++ [Re.AnyStar; Re.Eol].

Lemma nl_free_app (a b : string) :
  nl_free (a +:+ b) = nl_free a && nl_free b.
Proof. induction a as [|c a IH]; simpl; [reflexivity | now rewrite IH, andb_assoc]. Qed.

(** After the first [.*] has given characters back, the rest of the pattern
    matches exactly when the directive starts here; the match then runs to
    the end of the line. *)
Lemma match_tail (b : bool) (y r : string) :
  nl_free y = true -> Re.at_eol r = true ->
  Re.match_here tail b (y +:+ r)
  = if String.prefix lit y then Some (String.length y) else None.
Proof.
  intros Hy Hr. destruct (String.prefix lit y) eqn:Hp.
  - destruct (prefix_inv _ _ Hp) as [y' ->].
    rewrite nl_free_app in Hy. apply andb_true_iff in Hy as [_ Hy'].
    rewrite str_app_assoc. unfold tail. rewrite match_literal_line by assumption.
    now rewrite str_length_app.
  - apply match_literal_fail. now rewrite prefix_line.
Qed.

(** From the start of a line the pattern matches exactly when the line
    contains the directive, and the match is the whole line. *)
Lemma match_line (b : bool) (y r : string) :
  nl_free y = true -> Re.at_eol r = true ->
  Re.match_here (Re.AnyStar :: tail) b (y +:+ r)
  = if Str.contains lit y then Some (String.length y) else None.
Proof.
  revert b; induction y as [|d y IH]; intros b Hy Hr.
  - assert (Hp : String.prefix lit EmptyString = false).
    { destruct lit; [congruence | reflexivity]. }
    pose proof (match_tail b EmptyString r eq_refl Hr) as Ht.
    rewrite Hp in Ht. cbn [Str.contains]. rewrite Hp. simpl in Ht |- *.
    destruct r as [|e r]; [exact Ht|]. simpl in Hr. rewrite Hr. exact Ht.
  - pose proof (match_tail b (String d y) r Hy Hr) as Ht.
    simpl in Hy. apply andb_true_iff in Hy as [Hd Hy]. apply negb_true_iff in Hd.
    specialize (IH false Hy Hr).
    change (String d y +:+ r) with (String d (y +:+ r)) in *.
    cbn [Str.contains].
    change (Re.match_here (Re.AnyStar :: tail) b (String d (y +:+ r)))
      with (if is_nl d then Re.match_here tail b (String d (y +:+ r))
            else match Re.match_here (Re.AnyStar :: tail) false (y +:+ r) with
                 | Some n => Some (S n)
                 | None => Re.match_here tail b (String d (y +:+ r))
                 end).
    rewrite Hd, IH, Ht.
    destruct (Str.contains lit y); [now rewrite orb_true_r|].
    rewrite orb_false_r. reflexivity.
Qed.

Let pat : Re.regex := Re.Bol :: Re.AnyStar :: tail.

Lemma match_pat_inside (s : string) : Re.match_here pat false s = None.
Proof. reflexivity. Qed.

Lemma match_pat_bol (s : string) :
  Re.match_here pat true s = Re.match_here (Re.AnyStar :: tail) true s.
Proof. reflexivity. Qed.

Lemma contains_empty : Str.contains lit EmptyString = false.
Proof. destruct lit; [congruence | reflexivity]. Qed.

(** At the end of a line nothing matches: the scan copies the line feed and
    starts the next line. *)
Lemma sub_at_eol (b : bool) (r : string) :
  Re.at_eol r = true ->
  Re.sub_go pat EmptyString b 0 r
  = match r with
    | EmptyString => EmptyString
    | String c r' => String c (Re.sub_go pat EmptyString true 0 r')
    end.
Proof.
  intros Hr.
  assert (Hm : Re.match_here pat b r = None).
  { destruct b; [|reflexivity].
    rewrite match_pat_bol.
    pose proof (match_line true EmptyString r eq_refl Hr) as H.
    now rewrite contains_empty in H. }
  destruct r as [|c r']; cbn [Re.sub_go]; rewrite Hm; [reflexivity|].
  simpl in Hr. now rewrite Hr.
Qed.

(** Inside a line that did not match at its start, characters are copied. *)
Lemma sub_copy (y r : string) :
  nl_free y = true -> Re.at_eol r = true ->
  Re.sub_go pat EmptyString false 0 (y +:+ r)
  = y +:+ Re.sub_go pat EmptyString false 0 r.
Proof.
  induction y as [|d y IH]; intros Hy Hr; [reflexivity|].
  simpl in Hy. apply andb_true_iff in Hy as [Hd Hy]. apply negb_true_iff in Hd.
  change (String d y +:+ r) with (String d (y +:+ r)).
  cbn [Re.sub_go]. rewrite match_pat_inside, Hd, (IH Hy Hr). reflexivity.
Qed.

(** A matched line is dropped up to its end. *)
Lemma sub_skip (b : bool) (y r : string) :
  Re.at_eol r = true ->
  Re.sub_go pat EmptyString b (String.length y) (y +:+ r)
  = Re.sub_go pat EmptyString false 0 r.
Proof.
  intros Hr. revert b; induction y as [|d y IH]; intros b.
  - simpl. rewrite !sub_at_eol by assumption. reflexivity.
  - change (String d y +:+ r) with (String d (y +:+ r)).
    cbn [String.length Re.sub_go]. apply IH.
Qed.

Lemma sub_line (y r : string) :
  nl_free y = true -> Re.at_eol r = true ->
  Re.sub_go pat EmptyString true 0 (y +:+ r)
  = blank lit y +:+ Re.sub_go pat EmptyString false 0 r.
Proof.
  intros Hy Hr. unfold blank.
  pose proof (match_line true y r Hy Hr) as Hm. rewrite <- match_pat_bol in Hm.
  destruct (Str.contains lit y) eqn:Hc.
  - destruct y as [|d y]; [now rewrite contains_empty in Hc|].
    change (String d y +:+ r) with (String d (y +:+ r)) in *.
    cbn [Re.sub_go]. rewrite Hm. cbn [String.length].
    simpl. apply sub_skip. assumption.
  - destruct y as [|d y].
    + simpl. rewrite !sub_at_eol by assumption. reflexivity.
    + change (String d y +:+ r) with (String d (y +:+ r)) in *.
      cbn [Re.sub_go]. rewrite Hm.
      simpl in Hy. apply andb_true_iff in Hy as [Hd Hy]. apply negb_true_iff in Hd.
      rewrite Hd. rewrite (sub_copy y r Hy Hr). reflexivity.
Qed.

(** The substitution blanks every line that contains the directive and keeps
    every other line and every line feed. *)
Lemma sub_join (ls : list string) :
  ls <> [] -> Forall (fun l => nl_free l = true) ls ->
  Re.sub pat EmptyString (Str.join nl ls) = Str.join nl (map (blank lit) ls).
Proof.
  unfold Re.sub.
  induction ls as [|l ls IH]; intros Hne Hall; [congruence|].
  inversion Hall as [|? ? Hl Hls]; subst.
  destruct ls as [|l2 ls].
  - simpl Str.join. rewrite <- (str_app_empty_r l) at 1.
    rewrite sub_line by auto. rewrite sub_at_eol by auto. apply str_app_empty_r.
  - rewrite join_cons2. cbn [map]. rewrite join_cons2.
    rewrite sub_line by auto. rewrite sub_at_eol by auto.
    change (nl +:+ Str.join nl (l2 :: ls)) with (String NL (Str.join nl (l2 :: ls))).
    cbv iota. rewrite IH by (auto; discriminate). reflexivity.
Qed.

Lemma blank_nl_free (l : string) : nl_free l = true -> nl_free (blank lit l) = true.
Proof. unfold blank. now destruct (Str.contains lit l). Qed.

Lemma blank_clean (l : string) : Str.contains lit (blank lit l) = false.
Proof.
  unfold blank. destruct (Str.contains lit l) eqn:E; [apply contains_empty | exact E].
Qed.

Lemma blank_idem (l : string) : blank lit (blank lit l) = blank lit l.
Proof. unfold blank at 1. now rewrite blank_clean. Qed.

Lemma sub_lines (s : string) :
  Re.sub pat EmptyString s = Str.join nl (map (blank lit) (Str.lines s)).
Proof.
  rewrite <- (join_lines s) at 1.
  apply sub_join; [exact (lines_nonempty s) | exact (lines_nl_free s)].
Qed.

Lemma lines_sub (s : string) :
  Str.lines (Re.sub pat EmptyString s) = map (blank lit) (Str.lines s).
Proof.
  rewrite sub_lines. apply lines_join.
  - pose proof (lines_nonempty s). now destruct (Str.lines s).
  - pose proof (lines_nl_free s) as Hall.
    induction Hall as [|l ls Hl _ IH]; constructor; auto using blank_nl_free.
Qed.

End CaptionLine.

(** ** The caption stripper *)

Lemma caption_nonempty : caption <> EmptyString.
Proof. discriminate. Qed.

Lemma caption_sub_lines (s : string) :
  Re.sub caption_re EmptyString s = Str.join nl (map (blank caption) (Str.lines s)).
Proof. apply (sub_lines caption); [discriminate | reflexivity]. Qed.

Lemma caption_lines_sub (s : string) :
  Str.lines (Re.sub caption_re EmptyString s) = map (blank caption) (Str.lines s).
Proof. apply (lines_sub caption); [discriminate | reflexivity]. Qed.

Lemma caption_sub_idem (s : string) :
  Re.sub caption_re EmptyString (Re.sub caption_re EmptyString s)
  = Re.sub caption_re EmptyString s.
Proof.
  rewrite (caption_sub_lines (Re.sub caption_re EmptyString s)).
  rewrite caption_lines_sub, caption_sub_lines.
  rewrite map_map.
  rewrite (map_ext (fun l => blank caption (blank caption l)) (blank caption));
    [reflexivity|].
  intros l. apply blank_idem; [exact caption_nonempty | reflexivity].
Qed.

Lemma remove_captions_file (tex_file : string) (w : world) (c : string) :
  fs w !! tex_file = Some (File c) ->
  remove_captions_from_tex tex_file w
  = (Ok tt, set_fs (<[tex_file := File (Re.sub caption_re EmptyString c)]> (fs w)) w).
Proof.
  intros H. unfold remove_captions_from_tex, bind, read_text, write_text.
  now rewrite H, H.
Qed.

Lemma content_of_set_fs (w : world) (path : string) (text : string) :
  content_of (set_fs (<[path := File text]> (fs w)) w) path = Some text.
Proof. unfold content_of. simpl. now rewrite lookup_insert_eq. Qed.

(** C3 as worded fails: on a two-line text whose first line holds
    a caption, one line contains the directive, and the text has two lines
    before and two lines after the run, not one. *)
Lemma C3_counterexample :
  fs caption_world !! "t.tex" = Some (File caption_text)
  /\ caption_line_count caption_text = 1
  /\ line_count caption_text = 2
  /\ exists c',
       content_of (snd (remove_captions_from_tex "t.tex" caption_world)) "t.tex" = Some c'
       /\ line_count c' = 2
       /\ line_count c' + caption_line_count caption_text <> line_count caption_text.
Proof.
  split; [vm_compute; reflexivity|].
  split; [reflexivity|]. split; [reflexivity|].
  exists (nl +:+ "x"). split; [vm_compute; reflexivity|].
  split; [reflexivity | vm_compute; lia].
Qed.

Lemma empty_count_blank (ls : list string) :
  length (List.filter is_empty_line (map (blank caption) ls))
  = length (List.filter is_empty_line ls)
    + length (List.filter (Str.contains caption) ls).
Proof.
  induction ls as [|l ls IH]; [reflexivity|].
  cbn [map List.filter]. destruct (Str.contains caption l) eqn:Hc.
  - assert (Hb : blank caption l = EmptyString) by (unfold blank; now rewrite Hc).
    assert (He : is_empty_line l = false) by (destruct l; [discriminate Hc | reflexivity]).
    rewrite Hb, He. change (is_empty_line EmptyString) with true.
    cbn [length]. rewrite IH. lia.
  - assert (Hb : blank caption l = l) by (unfold blank; now rewrite Hc).
    rewrite Hb. destruct (is_empty_line l); cbn [length]; rewrite IH; lia.
Qed.

(** C3, amended: the run keeps the number of lines.  The lines of the new
    text are those of the old one with every line that contains the caption
    directive replaced by an empty line, so with N such lines the text has N
    more empty lines than before and as many lines in all. *)
Theorem C3_line_count_unchanged (tex_file : string) (w : world) (c : string) :
  fs w !! tex_file = Some (File c) ->
  exists c',
    remove_captions_from_tex tex_file w
    = (Ok tt, set_fs (<[tex_file := File c']> (fs w)) w)
    /\ content_of (snd (remove_captions_from_tex tex_file w)) tex_file = Some c'
    /\ Str.lines c' = map (blank caption) (Str.lines c)
    /\ line_count c' = line_count c
    /\ empty_line_count c' = empty_line_count c + caption_line_count c.
Proof.
  intros H. exists (Re.sub caption_re EmptyString c).
  rewrite (remove_captions_file _ _ _ H).
  split; [reflexivity|]. split; [apply content_of_set_fs|].
  split; [apply caption_lines_sub|].
  unfold line_count, empty_line_count, caption_line_count.
  rewrite caption_lines_sub. split; [apply length_map | apply empty_count_blank].
Qed.

Lemma C3_line_count_unchanged_witness :
  fs caption_world !! "t.tex" = Some (File caption_text)
  /\ exists c',
       remove_captions_from_tex "t.tex" caption_world
       = (Ok tt, set_fs (<["t.tex" := File c']> (fs caption_world)) caption_world)
       /\ content_of (snd (remove_captions_from_tex "t.tex" caption_world)) "t.tex" = Some c'
       /\ Str.lines c' = map (blank caption) (Str.lines caption_text)
       /\ line_count c' = line_count caption_text
       /\ empty_line_count c' = empty_line_count caption_text + caption_line_count caption_text.
Proof.
  split; [vm_compute; reflexivity|].
  apply (C3_line_count_unchanged "t.tex" caption_world caption_text).
  vm_compute; reflexivity.
Defined.

(** C4: after the run no line of the file contains the caption directive,
    and neither does the text as a whole. *)
Theorem C4_no_caption_line_remains (tex_file : string) (w : world) (c : string) :
  fs w !! tex_file = Some (File c) ->
  exists c',
    remove_captions_from_tex tex_file w
    = (Ok tt, set_fs (<[tex_file := File c']> (fs w)) w)
    /\ content_of (snd (remove_captions_from_tex tex_file w)) tex_file = Some c'
    /\ Forall (fun l => Str.contains caption l = false) (Str.lines c')
    /\ caption_line_count c' = 0
    /\ Str.contains caption c' = false.
Proof.
  intros H. exists (Re.sub caption_re EmptyString c).
  rewrite (remove_captions_file _ _ _ H).
  split; [reflexivity|]. split; [apply content_of_set_fs|].
  assert (Hall : Forall (fun l => Str.contains caption l = false)
                   (Str.lines (Re.sub caption_re EmptyString c))).
  { rewrite caption_lines_sub. induction (Str.lines c) as [|l ls IH]; constructor.
    - apply blank_clean; [exact caption_nonempty | reflexivity].
    - exact IH. }
  split; [exact Hall|].
  split.
  - unfold caption_line_count.
    induction Hall as [|l ls Hl _ IH]; [reflexivity|].
    cbn [List.filter]. now rewrite Hl.
  - rewrite (contains_lines caption) by (discriminate || reflexivity).
    induction Hall as [|l ls Hl _ IH]; [reflexivity|].
    cbn [existsb]. now rewrite Hl.
Qed.

Lemma C4_no_caption_line_remains_witness :
  fs caption_world !! "t.tex" = Some (File caption_text)
  /\ exists c',
       remove_captions_from_tex "t.tex" caption_world
       = (Ok tt, set_fs (<["t.tex" := File c']> (fs caption_world)) caption_world)
       /\ content_of (snd (remove_captions_from_tex "t.tex" caption_world)) "t.tex" = Some c'
       /\ Forall (fun l => Str.contains caption l = false) (Str.lines c')
       /\ caption_line_count c' = 0
       /\ Str.contains caption c' = false.
Proof.
  split; [vm_compute; reflexivity|].
  apply (C4_no_caption_line_remains "t.tex" caption_world caption_text).
  vm_compute; reflexivity.
Defined.

(** C10: running the caption stripper a second time changes nothing: it ends
    the same way and leaves the world of the first run, whatever the path
    holds. *)
Theorem C10_remove_captions_idempotent (tex_file : string) (w : world) :
  remove_captions_from_tex tex_file (snd (remove_captions_from_tex tex_file w))
  = remove_captions_from_tex tex_file w.
Proof.
  destruct (fs w !! tex_file) as [[c|]|] eqn:E.
  - rewrite (remove_captions_file _ _ _ E). cbn [snd].
    rewrite (remove_captions_file _ _ (Re.sub caption_re EmptyString c)).
    + rewrite caption_sub_idem. unfold set_fs. cbn [fs console spawned].
      now rewrite insert_insert_eq.
    + cbn [fs set_fs]. apply lookup_insert_eq.
  - unfold remove_captions_from_tex, bind, read_text. rewrite E. cbn [snd]. now rewrite E.
  - unfold remove_captions_from_tex, bind, read_text. rewrite E. cbn [snd]. now rewrite E.
Qed.

(** ** The document structure ensurer *)

Lemma ensure_adds (tex_file : string) (w : world) (c : string) :
  fs w !! tex_file = Some (File c) ->
  Str.contains begin_document c = false ->
  ensure_latex_document_structure tex_file w
  = (Ok tt,
     {| fs := <[tex_file := File (preamble +:+ c +:+ end_document)]> (fs w);
        console := console w ++ ["Adding document structure to " +:+ tex_file];
        spawned := spawned w |}).
Proof.
  intros H Hc.
  unfold ensure_latex_document_structure, bind, read_text, write_text, print.
  rewrite H, Hc. cbn [negb fs]. now rewrite H.
Qed.

Lemma ensure_keeps (tex_file : string) (w : world) (c : string) :
  fs w !! tex_file = Some (File c) ->
  Str.contains begin_document c = true ->
  ensure_latex_document_structure tex_file w
  = (Ok tt,
     {| fs := fs w;
        console := console w ++ ["Document structure already exists in " +:+ tex_file];
        spawned := spawned w |}).
Proof.
  intros H Hc.
  unfold ensure_latex_document_structure, bind, read_text, print.
  now rewrite H, Hc.
Qed.

(** C1: on a file without the body-begin marker the ensurer writes the fixed
    preamble, the old text and the end marker, in this order: the new text
    contains both markers and the old text as one contiguous piece. *)
Theorem C1_structure_added (tex_file : string) (w : world) (c : string) :
  fs w !! tex_file = Some (File c) ->
  Str.contains begin_document c = false ->
  exists c',
    fst (ensure_latex_document_structure tex_file w) = Ok tt
    /\ fs (snd (ensure_latex_document_structure tex_file w))
       = <[tex_file := File c']> (fs w)
    /\ content_of (snd (ensure_latex_document_structure tex_file w)) tex_file = Some c'
    /\ c' = preamble +:+ c +:+ end_document
    /\ Str.contains "\begin{document}" c' = true
    /\ Str.contains "\end{document}" c' = true
    /\ Str.contains c c' = true.
Proof.
  intros H Hc. exists (preamble +:+ c +:+ end_document).
  rewrite (ensure_adds _ _ _ H Hc). cbn [fst snd fs].
  split; [reflexivity|]. split; [reflexivity|].
  split; [unfold content_of; cbn [fs]; now rewrite lookup_insert_eq|].
  split; [reflexivity|].
  split; [|split].
  - change (preamble +:+ c +:+ end_document)
      with (("\documentclass{article}" +:+ nl +:+ "\usepackage{dcolumn}" +:+ nl +:+
             "\usepackage{float}" +:+ nl +:+ "\usepackage{booktabs}" +:+ nl +:+
             "\usepackage{graphicx}" +:+ nl +:+ "\pagestyle{empty}" +:+ nl)
            +:+ "\begin{document}" +:+ (nl +:+ c +:+ end_document)).
    apply contains_intro.
  - replace (preamble +:+ c +:+ end_document)
      with ((preamble +:+ c +:+ nl) +:+ "\end{document}" +:+ nl).
    + apply contains_intro.
    + unfold end_document. now rewrite !str_app_assoc.
  - apply contains_intro.
Qed.

Lemma C1_structure_added_witness :
  (fs caption_world !! "t.tex" = Some (File caption_text)
   /\ Str.contains begin_document caption_text = false)
  /\ exists c',
       fst (ensure_latex_document_structure "t.tex" caption_world) = Ok tt
       /\ fs (snd (ensure_latex_document_structure "t.tex" caption_world))
          = <["t.tex" := File c']> (fs caption_world)
       /\ content_of (snd (ensure_latex_document_structure "t.tex" caption_world)) "t.tex"
          = Some c'
       /\ c' = preamble +:+ caption_text +:+ end_document
       /\ Str.contains "\begin{document}" c' = true
       /\ Str.contains "\end{document}" c' = true
       /\ Str.contains caption_text c' = true.
Proof.
  split; [split; vm_compute; reflexivity|].
  apply (C1_structure_added "t.tex" caption_world caption_text); vm_compute; reflexivity.
Defined.

(** C2: on a file that already contains the body-begin marker the ensurer
    writes nothing: the file store is the one it found, after one run and
    after any further run. *)
Theorem C2_structure_kept (tex_file : string) (w : world) (c : string) :
  fs w !! tex_file = Some (File c) ->
  Str.contains "\begin{document}" c = true ->
  fst (ensure_latex_document_structure tex_file w) = Ok tt
  /\ fs (snd (ensure_latex_document_structure tex_file w)) = fs w
  /\ content_of (snd (ensure_latex_document_structure tex_file w)) tex_file = Some c
  /\ fs (snd (ensure_latex_document_structure tex_file
                (snd (ensure_latex_document_structure tex_file w)))) = fs w.
Proof.
  intros H Hc. rewrite (ensure_keeps _ _ _ H Hc). cbn [fst snd fs].
  split; [reflexivity|]. split; [reflexivity|].
  split; [unfold content_of; cbn [fs]; now rewrite H|].
  rewrite (ensure_keeps _ _ c); [reflexivity | exact H | exact Hc].
Qed.

Lemma C2_structure_kept_witness :
  (fs structured_world !! "t.tex" = Some (File structured_text)
   /\ Str.contains "\begin{document}" structured_text = true)
  /\ fst (ensure_latex_document_structure "t.tex" structured_world) = Ok tt
  /\ fs (snd (ensure_latex_document_structure "t.tex" structured_world))
     = fs structured_world
  /\ content_of (snd (ensure_latex_document_structure "t.tex" structured_world)) "t.tex"
     = Some structured_text
  /\ fs (snd (ensure_latex_document_structure "t.tex"
                (snd (ensure_latex_document_structure "t.tex" structured_world))))
     = fs structured_world.
Proof.
  split; [split; vm_compute; reflexivity|].
  apply (C2_structure_kept "t.tex" structured_world structured_text); vm_compute; reflexivity.
Defined.

(** ** Sequencing *)

Lemma bind_ok {A B} (m : M A) (k : A -> M B) (w w' : world) (a : A) :
  m w = (Ok a, w') -> bind m k w = k a w'.
Proof. intros H. unfold bind. now rewrite H. Qed.

Lemma bind_raise {A B} (m : M A) (k : A -> M B) (w w' : world) (e : exn) :
  m w = (Raise e, w') -> bind m k w = (Raise e, w').
Proof. intros H. unfold bind. now rewrite H. Qed.

Lemma try_ok {A} (m : M A) (h : exn -> option (M A)) (w w' : world) (a : A) :
  m w = (Ok a, w') -> try_except m h w = (Ok a, w').
Proof. intros H. unfold try_except. now rewrite H. Qed.

Lemma try_handled {A} (m : M A) (h : exn -> option (M A)) (w w' : world)
    (e : exn) (k : M A) :
  m w = (Raise e, w') -> h e = Some k -> try_except m h w = k w'.
Proof. intros H Hh. unfold try_except. now rewrite H, Hh. Qed.

Lemma bind_ok_inv {A B} (m : M A) (k : A -> M B) (w w' : world) (b : B) :
  bind m k w = (Ok b, w') ->
  exists a w1, m w = (Ok a, w1) /\ k a w1 = (Ok b, w').
Proof.
  unfold bind. destruct (m w) as [[a|e] w1]; intros H; [|discriminate H].
  now exists a, w1.
Qed.

Ltac run_ok H := erewrite bind_ok by exact H; cbv beta.

Ltac inv_bind H :=
  let a := fresh "a" in
  let w := fresh "w" in
  let Hstep := fresh "Hstep" in
  apply bind_ok_inv in H as (a & w & Hstep & H).

(** [if not os.path.exists(path): raise e] *)
Lemma check_absent {B} (path : string) (e : exn) (k : unit -> M B) (w : world) :
  fs w !! path = None ->
  (present <- os_path_exists path ;;
   bind (if negb present then raise e else ret tt) k) w
  = (Raise e, w).
Proof.
  intros H. unfold bind at 1, os_path_exists. rewrite H.
  rewrite bool_decide_eq_false_2 by (intros [? ?]; discriminate).
  reflexivity.
Qed.

Lemma check_present {B} (path : string) (e : exn) (k : unit -> M B) (w : world) :
  is_Some (fs w !! path) ->
  (present <- os_path_exists path ;;
   bind (if negb present then raise e else ret tt) k) w
  = k tt w.
Proof.
  intros H. unfold bind at 1, os_path_exists.
  rewrite bool_decide_eq_true_2 by exact H. reflexivity.
Qed.

(** ** Preparation *)

Lemma prepare_file (tex_file : string) (w : world) (c : string) :
  fs w !! tex_file = Some (File c) ->
  exists c' out,
    prepare tex_file w
    = (Ok tt, {| fs := <[tex_file := File c']> (fs w);
                 console := console w ++ out;
                 spawned := spawned w |}).
Proof.
  intros H. unfold prepare.
  set (c1 := Re.sub caption_re EmptyString c).
  pose proof (remove_captions_file _ _ _ H) as Hrem. fold c1 in Hrem.
  erewrite bind_ok by exact Hrem.
  assert (H1 : fs (set_fs (<[tex_file := File c1]> (fs w)) w) !! tex_file = Some (File c1))
    by apply lookup_insert_eq.
  destruct (Str.contains begin_document c1) eqn:Hc.
  - rewrite (ensure_keeps _ _ _ H1 Hc). cbn [fs set_fs console spawned].
    now exists c1, ["Document structure already exists in " +:+ tex_file].
  - rewrite (ensure_adds _ _ _ H1 Hc). cbn [fs set_fs console spawned].
    rewrite insert_insert_eq.
    now exists (preamble +:+ c1 +:+ end_document),
               ["Adding document structure to " +:+ tex_file].
Qed.

Lemma prepare_ok (tex_file : string) (w : world) (c : string) :
  fs w !! tex_file = Some (File c) ->
  prepare tex_file w = (Ok tt, snd (prepare tex_file w))
  /\ spawned (snd (prepare tex_file w)) = spawned w.
Proof.
  intros H. destruct (prepare_file _ _ _ H) as (c' & out & ->). now split.
Qed.


(** ** Clean-up *)




(** ** The converter *)

Section Conversion.

Context {P : Platform}.

Variables (tex_file output_image : string) (density quality : Z).

Let tex_dir : string := PosixPath.dirname tex_file.
Let compile_cmd : list string := pdflatex_cmd tex_dir tex_file.
Let pdf_file : string := pdf_file_of tex_file.
Let render_cmd : list string := magick_cmd density pdf_file quality output_image.

Lemma subprocess_run_zero (cmd : list string) (w : world) :
  returncode (fst (run_tool cmd (fs w))) = 0%Z ->
  subprocess_run cmd w
  = (Ok (fst (run_tool cmd (fs w))),
     {| fs := snd (run_tool cmd (fs w)); console := console w;
        spawned := spawned w ++ [cmd] |}).
Proof.
  intros H. unfold subprocess_run. destruct (run_tool cmd (fs w)) as [p f].
  cbn [fst snd] in *. now rewrite H.
Qed.

Lemma subprocess_run_nonzero (cmd : list string) (w : world) :
  returncode (fst (run_tool cmd (fs w))) <> 0%Z ->
  subprocess_run cmd w
  = (Raise (CalledProcessError cmd
              (returncode (fst (run_tool cmd (fs w))))
              (stdout (fst (run_tool cmd (fs w))))
              (stderr (fst (run_tool cmd (fs w))))),
     {| fs := snd (run_tool cmd (fs w)); console := console w;
        spawned := spawned w ++ [cmd] |}).
Proof.
  intros H. unfold subprocess_run. destruct (run_tool cmd (fs w)) as [p f].
  cbn [fst snd] in *. apply Z.eqb_neq in H. now rewrite H.
Qed.

(** A tool step that exits with status zero prints the captured output. *)
Lemma tool_step_zero (what : string) (cmd : list string) (w : world) :
  returncode (fst (run_tool cmd (fs w))) = 0%Z ->
  try_except (result <- subprocess_run cmd ;; print (stdout result))
    (on_called_process_error what) w
  = (Ok tt,
     {| fs := snd (run_tool cmd (fs w));
        console := console w ++ [stdout (fst (run_tool cmd (fs w)))];
        spawned := spawned w ++ [cmd] |}).
Proof.
  intros H. apply try_ok. run_ok (subprocess_run_zero cmd w H). reflexivity.
Qed.

(** A tool step that exits with another status prints the captured error
    output and raises a runtime error that names the command and the
    status. *)
Lemma tool_step_nonzero (what : string) (cmd : list string) (w : world) :
  returncode (fst (run_tool cmd (fs w))) <> 0%Z ->
  try_except (result <- subprocess_run cmd ;; print (stdout result))
    (on_called_process_error what) w
  = (Raise (RuntimeError
              (what +:+ ": "
               +:+ exn_str (CalledProcessError cmd
                              (returncode (fst (run_tool cmd (fs w))))
                              EmptyString EmptyString))),
     {| fs := snd (run_tool cmd (fs w));
        console := console w ++ [stderr (fst (run_tool cmd (fs w)))];
        spawned := spawned w ++ [cmd] |}).
Proof.
  intros H.
  erewrite try_handled;
    [| apply bind_raise, (subprocess_run_nonzero cmd w H) | reflexivity].
  reflexivity.
Qed.

Lemma tex_to_image_prepared (w : world) (c : string) :
  fs w !! tex_file = Some (File c) ->
  tex_to_image tex_file output_image density quality w
  = (try_except
       (result <- subprocess_run compile_cmd ;; print (stdout result))
       (on_called_process_error "Error compiling LaTeX file") ;;
     pdf_present <- os_path_exists pdf_file ;;
     (if negb pdf_present
      then raise (FileNotFoundError ("PDF file " +:+ pdf_file +:+ " was not created."))
      else ret tt) ;;
     try_except
       (result <- subprocess_run render_cmd ;; print (stdout result))
       (on_called_process_error "Error converting PDF to image") ;;
     image_present <- os_path_exists output_image ;;
     (if negb image_present
      then raise (FileNotFoundError ("Image file " +:+ output_image +:+ " was not created."))
      else ret tt) ;;
     remove_aux_files tex_dir (aux_files_of tex_file) ;;
     ret output_image) (snd (prepare tex_file w)).
Proof.
  intros H. destruct (prepare_ok _ _ _ H) as [Hp _].
  unfold prepare in Hp at 1. unfold bind in Hp at 1.
  unfold tex_to_image. unfold bind at 1.
  destruct (remove_captions_from_tex tex_file w) as [[[]|e] wa] eqn:Hrem;
    [|discriminate Hp].
  run_ok Hp. reflexivity.
Qed.

(** C6, amended: when the compiler exits with a status other than zero, the
    converter prints the captured error output and raises a runtime error
    whose message names the failed command line and its exit status, not
    the captured output.  The compiler has run once and nothing else has
    run, and the file store is the one the compiler left. *)
Theorem C6_compiler_failure (w : world) (c : string) :
  fs w !! tex_file = Some (File c) ->
  returncode (fst (run_tool compile_cmd (fs (snd (prepare tex_file w))))) <> 0%Z ->
  tex_to_image tex_file output_image density quality w
  = (Raise (RuntimeError
              ("Error compiling LaTeX file: "
               +:+ exn_str (CalledProcessError compile_cmd
                              (returncode (fst (run_tool compile_cmd
                                                  (fs (snd (prepare tex_file w))))))
                              EmptyString EmptyString))),
     {| fs := snd (run_tool compile_cmd (fs (snd (prepare tex_file w))));
        console := console (snd (prepare tex_file w))
                   ++ [stderr (fst (run_tool compile_cmd (fs (snd (prepare tex_file w)))))];
        spawned := spawned w ++ [compile_cmd] |}).
Proof.
  intros H Hrc. rewrite (tex_to_image_prepared w c H).
  destruct (prepare_ok _ _ _ H) as [_ Hsp].
  erewrite bind_raise; [|apply (tool_step_nonzero _ _ _ Hrc)].
  now rewrite Hsp.
Qed.

(** When the compiler reports success and nothing is at the document path
    that the converter derives, the converter raises a file-not-found error,
    which is not the runtime error of a failed tool, and only the compiler
    has run; when the rasterizer reports success and the image is not there,
    the converter raises a file-not-found error as well. *)
Lemma missing_artifact_raises (w : world) (c : string) :
  fs w !! tex_file = Some (File c) ->
  returncode (fst (run_tool compile_cmd (fs (snd (prepare tex_file w))))) = 0%Z ->
  let w1 := snd (prepare tex_file w) in
  let compiled := run_tool compile_cmd (fs w1) in
  let rendered := run_tool render_cmd (snd compiled) in
  (snd compiled !! pdf_file = None ->
   exists e,
     tex_to_image tex_file output_image density quality w
     = (Raise e,
        {| fs := snd compiled;
           console := console w1 ++ [stdout (fst compiled)];
           spawned := spawned w ++ [compile_cmd] |})
     /\ e = FileNotFoundError ("PDF file " +:+ pdf_file +:+ " was not created.")
     /\ forall msg, e <> RuntimeError msg)
  /\ (is_Some (snd compiled !! pdf_file) ->
      returncode (fst rendered) = 0%Z ->
      snd rendered !! output_image = None ->
      exists e,
        tex_to_image tex_file output_image density quality w
        = (Raise e,
           {| fs := snd rendered;
              console := console w1 ++ [stdout (fst compiled); stdout (fst rendered)];
              spawned := spawned w ++ [compile_cmd; render_cmd] |})
        /\ e = FileNotFoundError ("Image file " +:+ output_image +:+ " was not created.")
        /\ forall msg, e <> RuntimeError msg).
Proof.
  intros H Hrc w1 compiled rendered.
  destruct (prepare_ok _ _ _ H) as [_ Hsp]. fold w1 in Hsp.
  rewrite (tex_to_image_prepared w c H). fold w1.
  run_ok (tool_step_zero "Error compiling LaTeX file" compile_cmd w1 Hrc).
  fold compiled. split.
  - intros Hpdf. rewrite check_absent by exact Hpdf. rewrite Hsp.
    eexists. split; [reflexivity|]. split; [reflexivity | discriminate].
  - intros Hpdf Hrc2 Himg. rewrite check_present by exact Hpdf.
    erewrite bind_ok;
      [|apply (tool_step_zero "Error converting PDF to image" render_cmd); exact Hrc2].
    cbv beta. cbn [fs console spawned]. fold rendered.
    rewrite check_absent by exact Himg. rewrite Hsp, <- !List.app_assoc.
    eexists. split; [reflexivity|]. split; [reflexivity | discriminate].
Qed.


End Conversion.

(** ** Making directories *)

Lemma run_eta {A} (x : outcome A * world) (r : outcome A) :
  fst x = r -> x = (r, snd x).
Proof. intros <-. now destruct x. Qed.

Lemma bind_assoc {A B C} (m : M A) (k1 : A -> M B) (k2 : B -> M C) (w : world) :
  bind (bind m k1) k2 w = bind m (fun a => bind (k1 a) k2) w.
Proof. unfold bind. now destruct (m w) as [[a|e] w']. Qed.

Lemma rcut_app (sep : ascii) (s : string) :
  fst (Str.rcut sep s) +:+ snd (Str.rcut sep s) = s.
Proof.
  induction s as [|c s IH]; [reflexivity|]. cbn [Str.rcut].
  destruct (Str.rcut sep s) as [[|x h] t]; cbn [fst snd] in *.
  - destruct (Ascii.eqb c sep); cbn [fst snd String.append]; [reflexivity|].
    now rewrite <- IH.
  - cbn [String.append] in *. now rewrite IH.
Qed.

Lemma rstrip_slash_length (s : string) :
  String.length (Str.rstrip_slash s) <= String.length s.
Proof.
  induction s as [|c s IH]; [reflexivity|]. cbn [Str.rstrip_slash].
  destruct (Str.rstrip_slash s) as [|x r].
  - destruct (Ascii.eqb c SLASH); cbn [String.length]; lia.
  - cbn [String.length] in *. lia.
Qed.

Lemma split_length (p : string) :
  String.length (fst (PosixPath.split p)) + String.length (snd (PosixPath.split p))
  <= String.length p.
Proof.
  unfold PosixPath.split. pose proof (rcut_app SLASH p) as Happ.
  destruct (Str.rcut SLASH p) as [head tail]. cbn [fst snd] in Happ.
  apply (f_equal String.length) in Happ. rewrite str_length_app in Happ.
  pose proof (rstrip_slash_length head) as Hstrip.
  destruct (Str.rstrip_slash head); cbn [fst snd String.length] in *; lia.
Qed.

(** The head that [os.makedirs] calls itself on is shorter than its name. *)
Lemma makedirs_parts_shorter (name : string) :
  nonempty (snd (makedirs_parts name)) = true ->
  String.length (fst (makedirs_parts name)) < String.length name.
Proof.
  unfold makedirs_parts. pose proof (split_length name) as H1.
  destruct (PosixPath.split name) as [head tail]. cbn [fst snd] in H1.
  destruct tail as [|c tail].
  - pose proof (split_length head) as H2.
    destruct (PosixPath.split head) as [head' tail']. cbn [fst snd] in *.
    destruct tail'; [discriminate|]. cbn [String.length] in *. lia.
  - cbn [fst snd String.length] in *. lia.
Qed.

(** Fuel beyond the length of the name changes nothing. *)
Lemma makedirs_go_fuel (n m : nat) (name : string) :
  String.length name <= n -> String.length name <= m ->
  makedirs_go n name = makedirs_go m name.
Proof.
  revert m name; induction n as [|n IH]; intros m name Hn Hm.
  - destruct name; [|cbn in Hn; lia]. now destruct m.
  - destruct m as [|m]; [destruct name; [reflexivity | cbn in Hm; lia]|].
    cbn [makedirs_go]. pose proof (makedirs_parts_shorter name) as Hshort.
    destruct (makedirs_parts name) as [head tail]. cbn [fst snd] in Hshort.
    destruct (nonempty head && nonempty tail) eqn:E; [|reflexivity].
    apply andb_true_iff in E as [_ Ht]. specialize (Hshort Ht).
    now rewrite (IH m head) by lia.
Qed.

Lemma only_adds_ret {A} (a : A) : only_adds_dirs (ret a).
Proof. intros w. cbn. auto. Qed.

Lemma only_adds_bind {A B} (m : M A) (k : A -> M B) :
  only_adds_dirs m -> (forall a, only_adds_dirs (k a)) -> only_adds_dirs (bind m k).
Proof.
  intros Hm Hk w. unfold bind. specialize (Hm w).
  destruct (m w) as [[a|e] w']; cbn [snd] in *; [|exact Hm].
  destruct Hm as (Hc & Hs & Hf). destruct (Hk a w') as (Hc' & Hs' & Hf').
  split; [congruence|]. split; [congruence|]. intros p.
  destruct (Hf p) as [Hp|[Hp1 Hp2]], (Hf' p) as [Hp'|[Hp1' Hp2']].
  - left. congruence.
  - right. split; congruence.
  - right. split; congruence.
  - congruence.
Qed.

Lemma only_adds_try {A} (m : M A) (h : exn -> option (M A)) :
  only_adds_dirs m -> (forall e k, h e = Some k -> only_adds_dirs k) ->
  only_adds_dirs (try_except m h).
Proof.
  intros Hm Hh w. unfold try_except. specialize (Hm w).
  destruct (m w) as [[a|e] w']; cbn [snd] in *; [exact Hm|].
  destruct (h e) as [k|] eqn:E; [|exact Hm].
  destruct Hm as (Hc & Hs & Hf). destruct (Hh e k E w') as (Hc' & Hs' & Hf').
  split; [congruence|]. split; [congruence|]. intros p.
  destruct (Hf p) as [Hp|[Hp1 Hp2]], (Hf' p) as [Hp'|[Hp1' Hp2']].
  - left. congruence.
  - right. split; congruence.
  - right. split; congruence.
  - congruence.
Qed.

Lemma only_adds_exists (path : string) : only_adds_dirs (os_path_exists path).
Proof. intros w. cbn. auto. Qed.

Lemma only_adds_mkdir (path : string) : only_adds_dirs (os_mkdir path).
Proof.
  intros w. unfold os_mkdir.
  destruct path as [|c path]; [cbn; auto|].
  destruct (fs w !! String c path) as [n|] eqn:E; [cbn; auto|].
  destruct (Str.rstrip_slash (String c path)) as [|x stripped]; [cbn; auto|].
  destruct (blocked (fs w) (ancestors (String x stripped)) (String c path));
    [cbn; auto|].
  cbn [snd console spawned fs set_fs]. split; [reflexivity|]. split; [reflexivity|].
  intros p. destruct (decide (p = String c path)) as [->|Hne].
  - right. split; [exact E | apply lookup_insert_eq].
  - left. now apply lookup_insert_ne.
Qed.

Lemma only_adds_makedirs_go (fuel : nat) (name : string) :
  only_adds_dirs (makedirs_go fuel name).
Proof.
  revert name; induction fuel as [|fuel IH]; intros name; cbn [makedirs_go];
    destruct (makedirs_parts name) as [head tail];
    destruct (nonempty head && nonempty tail); try apply only_adds_mkdir;
    (apply only_adds_bind; [apply only_adds_exists|]);
    intros present; destruct (negb present); try apply only_adds_mkdir.
  apply only_adds_bind.
  - apply only_adds_try; [apply IH|].
    intros e k Hk. destruct e; try discriminate Hk. injection Hk as <-.
    apply only_adds_ret.
  - intros _. destruct (String.eqb tail "."); [apply only_adds_ret | apply only_adds_mkdir].
Qed.

Lemma only_adds_make_output_folder (output_folder : string) :
  only_adds_dirs (make_output_folder output_folder).
Proof.
  unfold make_output_folder. apply only_adds_bind; [apply only_adds_exists|].
  intros present. destruct (negb present); [|apply only_adds_ret].
  apply only_adds_makedirs_go.
Qed.

(** What is there before the output folder is made is there afterwards. *)
Lemma make_output_folder_keeps (output_folder path : string) (w : world) (n : node) :
  fs w !! path = Some n ->
  fs (snd (make_output_folder output_folder w)) !! path = Some n.
Proof.
  intros H. destruct (only_adds_make_output_folder output_folder w) as (_ & _ & Hf).
  destruct (Hf path) as [Hp|[Hp _]]; congruence.
Qed.

(** ** The console only grows *)

Lemma grows_ret {A} (a : A) : grows (ret a).
Proof. intros w. reflexivity. Qed.

Lemma grows_raise {A} (e : exn) : grows (@raise A e).
Proof. intros w. reflexivity. Qed.

Lemma grows_print (s : string) : grows (print s).
Proof. intros w. now exists [s]. Qed.

Lemma grows_bind {A B} (m : M A) (k : A -> M B) :
  grows m -> (forall a, grows (k a)) -> grows (bind m k).
Proof.
  intros Hm Hk w. unfold bind. specialize (Hm w).
  destruct (m w) as [[a|e] w']; cbn [snd] in *; [|exact Hm].
  etrans; [exact Hm | apply Hk].
Qed.

Lemma grows_try {A} (m : M A) (h : exn -> option (M A)) :
  grows m -> (forall e k, h e = Some k -> grows k) -> grows (try_except m h).
Proof.
  intros Hm Hh w. unfold try_except. specialize (Hm w).
  destruct (m w) as [[a|e] w']; cbn [snd] in *; [exact Hm|].
  destruct (h e) as [k|] eqn:E; [|exact Hm].
  etrans; [exact Hm | now apply (Hh e k)].
Qed.

Lemma grows_read_text (path : string) : grows (read_text path).
Proof. intros w. unfold read_text. now destruct (fs w !! path) as [[|]|]. Qed.

Lemma grows_write_text (path text : string) : grows (write_text path text).
Proof. intros w. unfold write_text. now destruct (fs w !! path) as [[|]|]. Qed.

Lemma grows_os_remove (path : string) : grows (os_remove path).
Proof. intros w. unfold os_remove. now destruct (fs w !! path) as [[|]|]. Qed.

Lemma grows_os_path_exists (path : string) : grows (os_path_exists path).
Proof. intros w. reflexivity. Qed.

Create HintDb grows.

#[local] Hint Resolve grows_ret grows_raise grows_print grows_read_text
  grows_write_text grows_os_remove grows_os_path_exists : grows.

Ltac grows_step :=
  first
    [ apply grows_bind; [|intros ?]
    | match goal with |- grows (if ?b then _ else _) => destruct b end
    | solve [auto with grows] ].

Lemma grows_remove_captions (tex_file : string) :
  grows (remove_captions_from_tex tex_file).
Proof. unfold remove_captions_from_tex. repeat grows_step. Qed.

Lemma grows_ensure (tex_file : string) :
  grows (ensure_latex_document_structure tex_file).
Proof. unfold ensure_latex_document_structure. repeat grows_step. Qed.

Lemma grows_remove_aux_files (tex_dir : string) (aux_files : list string) :
  grows (remove_aux_files tex_dir aux_files).
Proof.
  induction aux_files as [|a rest IH]; cbn [remove_aux_files]; [auto with grows|].
  repeat grows_step.
Qed.

#[local] Hint Resolve grows_remove_captions grows_ensure grows_remove_aux_files : grows.

(** ** The batch *)

Section Batch.

Context {P : Platform}.

Variables (input_folder output_folder : string) (density quality : Z).

Let step (w : world) (file_name : string) : world :=
  snd (convert_one input_folder output_folder density quality file_name w).

Lemma grows_subprocess_run (cmd : list string) : grows (subprocess_run cmd).
Proof.
  intros w. unfold subprocess_run. destruct (run_tool cmd (fs w)) as [p f].
  now destruct (returncode p =? 0)%Z.
Qed.

Lemma grows_tool_step (what : string) (cmd : list string) :
  grows (try_except (result <- subprocess_run cmd ;; print (stdout result))
           (on_called_process_error what)).
Proof.
  apply grows_try.
  - apply grows_bind; [apply grows_subprocess_run | auto with grows].
  - intros e k Hk. destruct e; try discriminate Hk.
    injection Hk as <-. repeat grows_step.
Qed.

Lemma grows_tex_to_image (tex_file output_image : string) :
  grows (tex_to_image tex_file output_image density quality).
Proof.
  unfold tex_to_image.
  repeat first [ apply grows_tool_step | grows_step ].
Qed.

Lemma grows_convert_one (file_name : string) :
  grows (convert_one input_folder output_folder density quality file_name).
Proof.
  unfold convert_one. destruct (Str.endswith ".tex" file_name); [|auto with grows].
  apply grows_try.
  - apply grows_bind; [apply grows_tex_to_image | auto with grows].
  - intros e k Hk. injection Hk as <-. auto with grows.
Qed.

Lemma grows_steps (names : list string) (w : world) :
  console w `prefix_of` console (fold_left step names w).
Proof.
  revert w; induction names as [|n names IH]; intros w; [reflexivity|].
  cbn [fold_left]. etrans; [apply (grows_convert_one n w) | apply IH].
Qed.

(** The body of the loop catches whatever the conversion raises. *)
Lemma convert_one_total (file_name : string) (w : world) :
  convert_one input_folder output_folder density quality file_name w
  = (Ok tt, step w file_name).
Proof.
  unfold step, convert_one. destruct (Str.endswith ".tex" file_name); [|reflexivity].
  unfold try_except.
  destruct (bind _ _ w) as [[[]|e] w']; [reflexivity|].
  reflexivity.
Qed.

Lemma for_each_steps (names : list string) (w : world) :
  for_each names (convert_one input_folder output_folder density quality) w
  = (Ok tt, fold_left step names w).
Proof.
  revert w; induction names as [|n names IH]; intros w; [reflexivity|].
  cbn [for_each fold_left]. erewrite bind_ok by apply convert_one_total. apply IH.
Qed.

Lemma convert_one_logs (file_name : string) (w w' : world) (e : exn) :
  Str.endswith ".tex" file_name = true ->
  tex_to_image (PosixPath.join input_folder file_name)
    (output_image_path_of output_folder file_name) density quality w = (Raise e, w') ->
  step w file_name
  = snd (print ("Error processing " +:+ file_name +:+ ": " +:+ exn_str e) w').
Proof.
  intros Hn Hrun. unfold step, convert_one. rewrite Hn.
  erewrite try_handled; [reflexivity | | reflexivity].
  apply bind_raise. exact Hrun.
Qed.


(** The batch after its first statement. *)
Lemma convert_all_after_folder (w : world) :
  convert_all_tex_to_images input_folder output_folder density quality w
  = bind (make_output_folder output_folder)
      (fun _ =>
         file_names <- os_listdir input_folder ;;
         for_each file_names (convert_one input_folder output_folder density quality)) w.
Proof.
  unfold convert_all_tex_to_images, make_output_folder. now rewrite bind_assoc.
Qed.

(** An error of making the output folder leaves the batch at once. *)
Lemma convert_all_folder_error (w : world) (e : exn) :
  fst (make_output_folder output_folder w) = Raise e ->
  convert_all_tex_to_images input_folder output_folder density quality w
  = (Raise e, snd (make_output_folder output_folder w)).
Proof.
  intros H. rewrite convert_all_after_folder. apply bind_raise.
  exact (run_eta _ _ H).
Qed.

(** Once the output folder is there, the batch never raises and runs the
    loop body on every listed name. *)
Lemma convert_all_steps (w : world) :
  fs w !! input_folder = Some Dir ->
  fst (make_output_folder output_folder w) = Ok tt ->
  convert_all_tex_to_images input_folder output_folder density quality w
  = (Ok tt,
     fold_left step
       (listdir_order (fs (snd (make_output_folder output_folder w))) input_folder)
       (snd (make_output_folder output_folder w))).
Proof.
  intros H Hok. pose proof (make_output_folder_keeps output_folder _ w _ H) as Hin.
  rewrite convert_all_after_folder.
  erewrite bind_ok by exact (run_eta _ _ Hok).
  cbv beta. erewrite bind_ok; [|unfold os_listdir; rewrite Hin; reflexivity].
  apply for_each_steps.
Qed.

(** A failure is logged with the name of the file, the log line stays on
    the console, and the loop goes on with the names that follow. *)
Lemma convert_all_logs (w : world) (pre post : list string) (file_name : string)
    (e : exn) (w' : world) :
  fs w !! input_folder = Some Dir ->
  fst (make_output_folder output_folder w) = Ok tt ->
  listdir_order (fs (snd (make_output_folder output_folder w))) input_folder
  = pre ++ file_name :: post ->
  Str.endswith ".tex" file_name = true ->
  tex_to_image (PosixPath.join input_folder file_name)
    (output_image_path_of output_folder file_name) density quality
    (fold_left step pre (snd (make_output_folder output_folder w))) = (Raise e, w') ->
  let line := "Error processing " +:+ file_name +:+ ": " +:+ exn_str e in
  let final :=
    snd (convert_all_tex_to_images input_folder output_folder density quality w) in
  final = fold_left step post (snd (print line w'))
  /\ line ∈ console final.
Proof.
  intros H Hok Hnames Hn Hrun line final.
  assert (Hfinal : final = fold_left step post (snd (print line w'))).
  { unfold final. rewrite (convert_all_steps w H Hok). cbn [snd].
    rewrite Hnames, fold_left_app. cbn [fold_left].
    now rewrite (convert_one_logs _ _ _ _ Hn Hrun). }
  split; [exact Hfinal|].
  rewrite Hfinal.
  destruct (grows_steps post (snd (print line w'))) as [k ->].
  cbn [print snd console]. set_solver.
Qed.

End Batch.

(** ** The converter and the batch on the sample inputs *)



(** C7, on two sources: for [notes.latex], whose name has no [.tex], and
    for [in/a.tex.tex] beside a document [in/a.pdf.pdf], the compiler exits
    with status zero and nothing is at the source path with its extension
    replaced by [.pdf]; the document path that the converter derives is
    another one, at which something is, so no file-not-found error for the
    document is raised and the rasterizer is run. *)
Theorem C7_expected_pdf_not_checked :
  (let run :=
     tex_to_image (P:=idle_platform) "notes.latex" "notes.png" 300 90 latex_world in
   returncode (fst (run_tool (Platform:=idle_platform)
                      (pdflatex_cmd EmptyString "notes.latex")
                      (fs (snd (prepare "notes.latex" latex_world))))) = 0%Z
   /\ fst (PosixPath.splitext "notes.latex") +:+ ".pdf" = "notes.pdf"
   /\ fs (snd run) !! "notes.pdf" = None
   /\ pdf_file_of "notes.latex" = "notes.latex"
   /\ spawned (snd run)
      = [pdflatex_cmd EmptyString "notes.latex";
         magick_cmd 300 "notes.latex" 90 "notes.png"]
   /\ fst run = Raise (FileNotFoundError "Image file notes.png was not created."))
  /\ (let run :=
        tex_to_image (P:=idle_platform) "in/a.tex.tex" "out/a.png" 300 90
          double_tex_world in
      returncode (fst (run_tool (Platform:=idle_platform)
                         (pdflatex_cmd "in" "in/a.tex.tex")
                         (fs (snd (prepare "in/a.tex.tex" double_tex_world))))) = 0%Z
      /\ PosixPath.join "in" (fst (PosixPath.splitext "a.tex.tex") +:+ ".pdf")
         = "in/a.tex.pdf"
      /\ fs (snd run) !! "in/a.tex.pdf" = None
      /\ pdf_file_of "in/a.tex.tex" = "in/a.pdf.pdf"
      /\ spawned (snd run)
         = [pdflatex_cmd "in" "in/a.tex.tex";
            magick_cmd 300 "in/a.pdf.pdf" 90 "out/a.png"]
      /\ fst run = Raise (FileNotFoundError "Image file out/a.png was not created.")).
Proof. cbv zeta. repeat split; vm_compute; reflexivity. Qed.

(** C6 as worded fails: the sample compiler exits with status 1
    and leaves a diagnostic on each of its two output streams; the message
    of the runtime error names the command line and the status and contains
    neither diagnostic. *)
Lemma C6_counterexample :
  let failed :=
    fst (demo_run (pdflatex_cmd "in" "in/z.tex")
           (fs (snd (prepare "in/z.tex" batch_world)))) in
  let msg :=
    "Error compiling LaTeX file: Command '['pdflatex', '-output-directory', 'in', 'in/z.tex']' returned non-zero exit status 1." in
  returncode failed = 1%Z
  /\ stdout failed = "! Missing } inserted."
  /\ stderr failed = "pdflatex: fatal error"
  /\ fst (tex_to_image (P:=demo_platform) "in/z.tex" "out/z.png" 300 90 batch_world)
     = Raise (RuntimeError msg)
  /\ Str.contains (stderr failed) msg = false
  /\ Str.contains (stdout failed) msg = false.
Proof. cbv zeta. repeat split; vm_compute; reflexivity. Qed.

Lemma C6_compiler_failure_witness :
  (fs batch_world !! "in/z.tex" = Some (File "\textbf{z")
   /\ returncode (fst (demo_run (pdflatex_cmd "in" "in/z.tex")
                         (fs (snd (prepare "in/z.tex" batch_world))))) <> 0%Z)
  /\ tex_to_image (P:=demo_platform) "in/z.tex" "out/z.png" 300 90 batch_world
     = (Raise (RuntimeError
                 ("Error compiling LaTeX file: "
                  +:+ exn_str (P:=demo_platform)
                        (CalledProcessError (pdflatex_cmd "in" "in/z.tex")
                           (returncode (fst (demo_run (pdflatex_cmd "in" "in/z.tex")
                                               (fs (snd (prepare "in/z.tex" batch_world))))))
                           EmptyString EmptyString))),
        {| fs := snd (demo_run (pdflatex_cmd "in" "in/z.tex")
                        (fs (snd (prepare "in/z.tex" batch_world))));
           console := console (snd (prepare "in/z.tex" batch_world))
                      ++ [stderr (fst (demo_run (pdflatex_cmd "in" "in/z.tex")
                                         (fs (snd (prepare "in/z.tex" batch_world)))))];
           spawned := spawned batch_world ++ [pdflatex_cmd "in" "in/z.tex"] |}).
Proof.
  split; [split; vm_compute; [reflexivity | discriminate]|].
  apply (C6_compiler_failure (P:=demo_platform) "in/z.tex" "out/z.png" 300 90
           batch_world "\textbf{z"); vm_compute; [reflexivity | discriminate].
Defined.

Lemma missing_artifact_raises_example :
  ((fs batch_world !! "in/a.tex" = Some (File ("\caption{A}" +:+ nl +:+ "\textbf{a}"))
    /\ returncode (fst (run_tool (Platform:=idle_platform) (pdflatex_cmd "in" "in/a.tex")
                          (fs (snd (prepare "in/a.tex" batch_world))))) = 0%Z)
   /\ fst (tex_to_image (P:=idle_platform) "in/a.tex" "out/a.png" 300 90 batch_world)
      = Raise (FileNotFoundError "PDF file in/a.pdf was not created.")
   /\ spawned (snd (tex_to_image (P:=idle_platform) "in/a.tex" "out/a.png" 300 90 batch_world))
      = [pdflatex_cmd "in" "in/a.tex"])
  /\ ((fs stale_world !! "in/a.tex" = Some (File "\textbf{a}")
       /\ returncode (fst (run_tool (Platform:=idle_platform) (pdflatex_cmd "in" "in/a.tex")
                             (fs (snd (prepare "in/a.tex" stale_world))))) = 0%Z)
      /\ fst (tex_to_image (P:=idle_platform) "in/a.tex" "out/a.png" 300 90 stale_world)
         = Raise (FileNotFoundError "Image file out/a.png was not created."))
.
Proof.
  split.
  - split; [split; vm_compute; reflexivity|].
    destruct (missing_artifact_raises (P:=idle_platform) "in/a.tex" "out/a.png" 300 90
                batch_world ("\caption{A}" +:+ nl +:+ "\textbf{a}"))
      as [Hpdf _]; [vm_compute; reflexivity ..|].
    destruct Hpdf as (e & Hrun & -> & _); [vm_compute; reflexivity|].
    rewrite Hrun. split; reflexivity.
  - split; [split; vm_compute; reflexivity|].
    destruct (missing_artifact_raises (P:=idle_platform) "in/a.tex" "out/a.png" 300 90
                stale_world "\textbf{a}")
      as [_ Himg]; [vm_compute; reflexivity ..|].
    destruct Himg as (e & Hrun & -> & _); [vm_compute; eauto | vm_compute; reflexivity ..|].
    rewrite Hrun. reflexivity.
Defined.

(** C8 as worded fails: the input folder is a directory, and the batch
    raises out of the call when the output folder cannot be made, here with
    an empty path and with a path below a regular file. *)
Lemma C8_counterexample :
  fs batch_world !! "in" = Some Dir
  /\ fst (convert_all_tex_to_images (P:=demo_platform) "in" EmptyString 300 90 batch_world)
     = Raise (FileNotFoundError "[Errno 2] No such file or directory: ''")
  /\ fst (convert_all_tex_to_images (P:=demo_platform) "in" "in/a.tex/out" 300 90
            batch_world)
     = Raise (NotADirectoryError "[Errno 20] Not a directory: 'in/a.tex/out'").
Proof. repeat split; vm_compute; reflexivity. Qed.

(** C8, amended: whenever the input folder is a directory, an error of
    making the output folder leaves the batch at once, before any file is
    looked at.  Once the output folder is there, the batch ends without
    raising and has run the loop body on every listed name in turn, the
    listing being some arrangement of the entries of the input folder; a
    file whose conversion raises is logged with its name and the text of
    the error, the line stays on the console, and the loop goes on with the
    names that follow.  In particular, on the sample directory with one
    source that compiles and one that does not, the batch ends without
    raising, the output folder holds exactly one image and the console
    exactly one error line. *)
Theorem C8_batch_survives_failures :
  (forall (P : Platform) (input_folder output_folder : string) (density quality : Z)
          (w : world),
     fs w !! input_folder = Some Dir ->
     let start := snd (make_output_folder output_folder w) in
     let names := listdir_order (fs start) input_folder in
     let step := fun w file_name =>
       snd (convert_one input_folder output_folder density quality file_name w) in
     let final :=
       snd (convert_all_tex_to_images input_folder output_folder density quality w) in
     (forall e,
        fst (make_output_folder output_folder w) = Raise e ->
        convert_all_tex_to_images input_folder output_folder density quality w
        = (Raise e, start))
     /\ (fst (make_output_folder output_folder w) = Ok tt ->
         convert_all_tex_to_images input_folder output_folder density quality w
         = (Ok tt, fold_left step names start)
         /\ Permutation names (entries_of (fs start) input_folder)
         /\ forall pre file_name post e w',
              names = pre ++ file_name :: post ->
              Str.endswith ".tex" file_name = true ->
              tex_to_image (PosixPath.join input_folder file_name)
                (output_image_path_of output_folder file_name) density quality
                (fold_left step pre start) = (Raise e, w') ->
              final
              = fold_left step post
                  (snd (print ("Error processing " +:+ file_name +:+ ": "
                               +:+ exn_str e) w'))
              /\ ("Error processing " +:+ file_name +:+ ": " +:+ exn_str e)
                 ∈ console final))
  /\ (let run :=
        convert_all_tex_to_images (P:=demo_platform) "in" "out" 300 90 batch_world in
      entries_of (fs batch_world) "in" = ["a.tex"; "z.tex"]
      /\ fst run = Ok tt
      /\ entries_of (fs (snd run)) "out" = ["a.png"]
      /\ List.filter (String.prefix "Error processing") (console (snd run))
         = ["Error processing z.tex: Error compiling LaTeX file: Command '['pdflatex', '-output-directory', 'in', 'in/z.tex']' returned non-zero exit status 1."]).
Proof.
  split.
  - intros P input_folder output_folder density quality w H start names step final.
    split; [intros e He; now apply convert_all_folder_error|].
    intros Hok. split; [apply convert_all_steps; assumption|].
    split; [apply listdir_order_perm|].
    intros pre file_name post e w' Hnames Hn Hrun.
    apply (convert_all_logs input_folder output_folder density quality
             w pre post file_name e w' H Hok Hnames Hn Hrun).
  - cbv zeta. repeat split; vm_compute; reflexivity.
Qed.

Lemma C8_batch_survives_failures_witness :
  (fs batch_world !! "in" = Some Dir
   /\ fst (make_output_folder "out" batch_world) = Ok tt)
  /\ convert_all_tex_to_images (P:=demo_platform) "in" "out" 300 90 batch_world
     = (Ok tt,
        fold_left
          (fun w file_name =>
             snd (convert_one (P:=demo_platform) "in" "out" 300 90 file_name w))
          (listdir_order (Platform:=demo_platform)
             (fs (snd (make_output_folder "out" batch_world))) "in")
          (snd (make_output_folder "out" batch_world)))
  /\ "Error processing z.tex: Error compiling LaTeX file: Command '['pdflatex', '-output-directory', 'in', 'in/z.tex']' returned non-zero exit status 1."
     ∈ console (snd (convert_all_tex_to_images (P:=demo_platform) "in" "out" 300 90
                       batch_world)).
Proof.
  assert (Hdir : fs batch_world !! "in" = Some Dir) by (vm_compute; reflexivity).
  assert (Hok : fst (make_output_folder "out" batch_world) = Ok tt)
    by (vm_compute; reflexivity).
  destruct (proj2 (proj1 C8_batch_survives_failures demo_platform "in" "out" 300%Z 90%Z
                     batch_world Hdir) Hok) as (Hrun & _ & Hlog).
  split; [now split|]. split; [exact Hrun|].
  refine (proj2 (Hlog ["a.tex"] "z.tex" []
                   (RuntimeError "Error compiling LaTeX file: Command '['pdflatex', '-output-directory', 'in', 'in/z.tex']' returned non-zero exit status 1.")
                   (snd (tex_to_image (P:=demo_platform) "in/z.tex" "out/z.png" 300 90
                           (snd (convert_one (P:=demo_platform) "in" "out" 300 90 "a.tex"
                                   (snd (make_output_folder "out" batch_world))))))
                   _ _ _)); vm_compute; reflexivity.
Defined.

(** C9, at a name that has [.tex] inside: the name ends in [.tex], so the
    batch converts it, and the image path it derives has every [.tex] of the
    name replaced, not the extension alone; the document path of the
    converter is derived the same way, so that the document the compiler
    wrote is not found. *)
Theorem C9_inner_tex_is_replaced :
  Str.endswith ".tex" "report.texture.tex" = true
  /\ output_image_path_of "out" "report.texture.tex" = "out/report.pngture.png"
  /\ output_image_path_of "out" "report.texture.tex"
     <> PosixPath.join "out"
          (fst (PosixPath.splitext "report.texture.tex") +:+ ".png")
  /\ entries_of (fs texture_world) "in" = ["report.texture.tex"]
  /\ console (snd (convert_all_tex_to_images (P:=demo_platform) "in" "out" 300 90
                     texture_world))
     = ["Adding document structure to in/report.texture.tex";
        "Output written";
        "Error processing report.texture.tex: PDF file in/report.pdfture.pdf was not created."].
Proof. repeat split; vm_compute; (reflexivity || discriminate). Qed.

(** * Further properties of the four functions *)

(** ** Texts that the preparation leaves alone *)

Lemma lines_app (a b : string) :
  Str.lines (a +:+ nl +:+ b) = Str.lines a ++ Str.lines b.
Proof.
  induction a as [|c a IH]; [reflexivity|].
  change (String c a +:+ nl +:+ b) with (String c (a +:+ nl +:+ b)).
  cbn [Str.lines]. rewrite IH. destruct (is_nl c); [reflexivity|].
  pose proof (lines_nonempty a) as Hne.
  now destruct (Str.lines a).
Qed.

Lemma blank_id_all (ls : list string) :
  existsb (Str.contains caption) ls = false -> map (blank caption) ls = ls.
Proof.
  induction ls as [|l ls IH]; [reflexivity|]. cbn [existsb map].
  intros [Hl Hls]%orb_false_iff. unfold blank at 1. now rewrite Hl, IH.
Qed.

Lemma caption_sub_clean (c : string) :
  Str.contains caption c = false -> Re.sub caption_re EmptyString c = c.
Proof.
  intros H. rewrite caption_sub_lines.
  rewrite (contains_lines caption) in H by (exact caption_nonempty || reflexivity).
  now rewrite (blank_id_all _ H), join_lines.
Qed.

Lemma set_fs_same (w : world) (path : string) (n : node) :
  fs w !! path = Some n -> set_fs (<[path := n]> (fs w)) w = w.
Proof. intros H. unfold set_fs. rewrite (insert_id _ _ _ H). now destruct w. Qed.

Lemma remove_captions_clean (tex_file : string) (w : world) (c : string) :
  fs w !! tex_file = Some (File c) ->
  Str.contains caption c = false ->
  remove_captions_from_tex tex_file w = (Ok tt, w).
Proof.
  intros H Hc. rewrite (remove_captions_file _ _ _ H), (caption_sub_clean _ Hc).
  now rewrite (set_fs_same _ _ _ H).
Qed.

Lemma caption_sub_no_caption (c : string) :
  Str.contains caption (Re.sub caption_re EmptyString c) = false.
Proof.
  rewrite (contains_lines caption) by (exact caption_nonempty || reflexivity).
  rewrite caption_lines_sub. induction (Str.lines c) as [|l ls IH]; [reflexivity|].
  cbn [map existsb]. rewrite IH, orb_false_r.
  apply blank_clean; [exact caption_nonempty | reflexivity].
Qed.

Lemma ensure_lines (c : string) :
  Str.lines (preamble +:+ c +:+ end_document)
  = preamble_lines ++ Str.lines c ++ ["\end{document}"; EmptyString].
Proof.
  change (preamble +:+ c +:+ end_document)
    with (("\documentclass{article}" +:+ nl +:+ "\usepackage{dcolumn}" +:+ nl +:+
           "\usepackage{float}" +:+ nl +:+ "\usepackage{booktabs}" +:+ nl +:+
           "\usepackage{graphicx}" +:+ nl +:+ "\pagestyle{empty}" +:+ nl +:+
           "\begin{document}")
          +:+ nl +:+ (c +:+ nl +:+ ("\end{document}" +:+ nl +:+ EmptyString))).
  now rewrite !lines_app.
Qed.

Lemma ensure_no_caption (c : string) :
  Str.contains caption c = false ->
  Str.contains caption (preamble +:+ c +:+ end_document) = false.
Proof.
  intros H.
  rewrite (contains_lines caption) in * by (exact caption_nonempty || reflexivity).
  rewrite ensure_lines, !existsb_app, H. reflexivity.
Qed.

(** What the preparation leaves at the path of a readable source. *)
Lemma prepare_spec (tex_file : string) (w : world) (c : string) :
  fs w !! tex_file = Some (File c) ->
  exists c' out,
    prepare tex_file w
    = (Ok tt, {| fs := <[tex_file := File c']> (fs w);
                 console := console w ++ out;
                 spawned := spawned w |})
    /\ Str.contains begin_document c' = true
    /\ Str.contains caption c' = false.
Proof.
  intros H. unfold prepare.
  set (c1 := Re.sub caption_re EmptyString c).
  pose proof (remove_captions_file _ _ _ H) as Hrem. fold c1 in Hrem.
  erewrite bind_ok by exact Hrem.
  assert (H1 : fs (set_fs (<[tex_file := File c1]> (fs w)) w) !! tex_file = Some (File c1))
    by apply lookup_insert_eq.
  assert (Hclean : Str.contains caption c1 = false) by apply caption_sub_no_caption.
  destruct (Str.contains begin_document c1) eqn:Hc.
  - rewrite (ensure_keeps _ _ _ H1 Hc). cbn [fs set_fs console spawned].
    exists c1, ["Document structure already exists in " +:+ tex_file]. auto.
  - rewrite (ensure_adds _ _ _ H1 Hc). cbn [fs set_fs console spawned].
    rewrite insert_insert_eq.
    exists (preamble +:+ c1 +:+ end_document),
           ["Adding document structure to " +:+ tex_file].
    split; [reflexivity|]. split; [|now apply ensure_no_caption].
    change (preamble +:+ c1 +:+ end_document)
      with (("\documentclass{article}" +:+ nl +:+ "\usepackage{dcolumn}" +:+ nl +:+
             "\usepackage{float}" +:+ nl +:+ "\usepackage{booktabs}" +:+ nl +:+
             "\usepackage{graphicx}" +:+ nl +:+ "\pagestyle{empty}" +:+ nl)
            +:+ begin_document +:+ (nl +:+ c1 +:+ end_document)).
    apply contains_intro.
Qed.

Lemma prepare_unreadable (tex_file : string) (w : world) :
  content_of w tex_file = None ->
  snd (prepare tex_file w) = w.
Proof.
  unfold content_of. intros H.
  unfold prepare, remove_captions_from_tex, bind, read_text.
  destruct (fs w !! tex_file) as [[c|]|]; [discriminate H | reflexivity | reflexivity].
Qed.

(** X1: a text without caption directive is written back as it was read: the
    caption stripper leaves the whole world as it found it. *)
Theorem X1_caption_free_text_is_kept (tex_file : string) (w : world) (c : string) :
  fs w !! tex_file = Some (File c) ->
  Str.contains "\caption" c = false ->
  remove_captions_from_tex tex_file w = (Ok tt, w).
Proof. apply remove_captions_clean. Qed.

Lemma X1_caption_free_text_is_kept_witness :
  (fs structured_world !! "t.tex" = Some (File structured_text)
   /\ Str.contains "\caption" structured_text = false)
  /\ remove_captions_from_tex "t.tex" structured_world = (Ok tt, structured_world).
Proof.
  split; [split; vm_compute; reflexivity|].
  apply (X1_caption_free_text_is_kept "t.tex" structured_world structured_text);
    vm_compute; reflexivity.
Defined.

(** X2: the ensurer is idempotent on every world: whatever the path holds,
    a second run leaves the file store of the first run, since the text the
    first run writes contains the body-begin marker. *)
Theorem X2_ensure_idempotent (tex_file : string) (w : world) :
  fs (snd (ensure_latex_document_structure tex_file
             (snd (ensure_latex_document_structure tex_file w))))
  = fs (snd (ensure_latex_document_structure tex_file w)).
Proof.
  destruct (fs w !! tex_file) as [[c|]|] eqn:E.
  - destruct (Str.contains begin_document c) eqn:Hc.
    + rewrite (ensure_keeps _ _ _ E Hc). cbn [snd].
      now rewrite (ensure_keeps _ _ c) by (exact E || exact Hc).
    + rewrite (ensure_adds _ _ _ E Hc). cbn [snd].
      rewrite (ensure_keeps _ _ (preamble +:+ c +:+ end_document)); [reflexivity| |].
      * cbn [fs]. apply lookup_insert_eq.
      * change (preamble +:+ c +:+ end_document)
          with (("\documentclass{article}" +:+ nl +:+ "\usepackage{dcolumn}" +:+ nl +:+
                 "\usepackage{float}" +:+ nl +:+ "\usepackage{booktabs}" +:+ nl +:+
                 "\usepackage{graphicx}" +:+ nl +:+ "\pagestyle{empty}" +:+ nl)
                +:+ begin_document +:+ (nl +:+ c +:+ end_document)).
        apply contains_intro.
  - unfold ensure_latex_document_structure, bind, read_text. rewrite E. cbn [snd].
    now rewrite E.
  - unfold ensure_latex_document_structure, bind, read_text. rewrite E. cbn [snd].
    now rewrite E.
Qed.

(** X3: when the ensurer wraps a text, the old lines stay lines of their
    own: the new file is the seven lines of the preamble, the old lines in
    their order, the end marker and an empty last line, nine lines more than
    before. *)
Theorem X3_wrapped_lines (tex_file : string) (w : world) (c : string) :
  fs w !! tex_file = Some (File c) ->
  Str.contains "\begin{document}" c = false ->
  exists c',
    content_of (snd (ensure_latex_document_structure tex_file w)) tex_file = Some c'
    /\ Str.lines c' = preamble_lines ++ Str.lines c ++ ["\end{document}"; EmptyString]
    /\ line_count c' = line_count c + 9.
Proof.
  intros H Hc. exists (preamble +:+ c +:+ end_document).
  rewrite (ensure_adds _ _ _ H Hc). cbn [snd].
  split; [unfold content_of; cbn [fs]; now rewrite lookup_insert_eq|].
  split; [apply ensure_lines|].
  unfold line_count. rewrite ensure_lines, !length_app.
  unfold preamble_lines. cbn [length]. lia.
Qed.

Lemma X3_wrapped_lines_witness :
  (fs caption_world !! "t.tex" = Some (File caption_text)
   /\ Str.contains "\begin{document}" caption_text = false)
  /\ exists c',
       content_of (snd (ensure_latex_document_structure "t.tex" caption_world)) "t.tex"
       = Some c'
       /\ Str.lines c'
          = preamble_lines ++ Str.lines caption_text ++ ["\end{document}"; EmptyString]
       /\ line_count c' = line_count caption_text + 9.
Proof.
  split; [split; vm_compute; reflexivity|].
  apply (X3_wrapped_lines "t.tex" caption_world caption_text); vm_compute; reflexivity.
Defined.

(** X4: after the two preparation steps a readable source contains the
    body-begin marker and no caption directive, so this is the text that
    the compiler is given. *)
Theorem X4_prepared_text (tex_file : string) (w : world) (c : string) :
  fs w !! tex_file = Some (File c) ->
  exists c',
    fst (prepare tex_file w) = Ok tt
    /\ content_of (snd (prepare tex_file w)) tex_file = Some c'
    /\ Str.contains "\begin{document}" c' = true
    /\ Str.contains "\caption" c' = false.
Proof.
  intros H. destruct (prepare_spec _ _ _ H) as (c' & out & -> & Hb & Hc).
  exists c'. cbn [fst snd]. split; [reflexivity|].
  split; [unfold content_of; cbn [fs]; now rewrite lookup_insert_eq|]. now split.
Qed.

Lemma X4_prepared_text_witness :
  fs caption_world !! "t.tex" = Some (File caption_text)
  /\ exists c',
       fst (prepare "t.tex" caption_world) = Ok tt
       /\ content_of (snd (prepare "t.tex" caption_world)) "t.tex" = Some c'
       /\ Str.contains "\begin{document}" c' = true
       /\ Str.contains "\caption" c' = false.
Proof.
  split; [vm_compute; reflexivity|].
  apply (X4_prepared_text "t.tex" caption_world caption_text). vm_compute; reflexivity.
Defined.

(** X5: the two preparation steps together are idempotent on the file store:
    preparing a source a second time, as a second conversion of the same
    file does, leaves every file as the first preparation left it. *)
Theorem X5_prepare_idempotent (tex_file : string) (w : world) :
  fs (snd (prepare tex_file (snd (prepare tex_file w)))) = fs (snd (prepare tex_file w)).
Proof.
  destruct (fs w !! tex_file) as [[c|]|] eqn:E.
  - destruct (prepare_spec _ _ _ E) as (c' & out & -> & Hb & Hc). cbn [snd].
    set (w1 := {| fs := <[tex_file := File c']> (fs w);
                  console := console w ++ out; spawned := spawned w |}).
    assert (H1 : fs w1 !! tex_file = Some (File c')) by apply lookup_insert_eq.
    unfold prepare. erewrite bind_ok by exact (remove_captions_clean _ _ _ H1 Hc).
    now rewrite (ensure_keeps _ _ _ H1 Hb).
  - assert (Hu : content_of w tex_file = None) by (unfold content_of; now rewrite E).
    now rewrite (prepare_unreadable _ _ Hu), (prepare_unreadable _ _ Hu).
  - assert (Hu : content_of w tex_file = None) by (unfold content_of; now rewrite E).
    now rewrite (prepare_unreadable _ _ Hu), (prepare_unreadable _ _ Hu).
Qed.

(** X6: the preparation writes to the source and to nothing else: every
    other path holds what it held, and no command is spawned. *)
Theorem X6_prepare_frame (tex_file : string) (w : world) :
  (forall p, p <> tex_file -> fs (snd (prepare tex_file w)) !! p = fs w !! p)
  /\ spawned (snd (prepare tex_file w)) = spawned w.
Proof.
  destruct (fs w !! tex_file) as [[c|]|] eqn:E.
  - destruct (prepare_spec _ _ _ E) as (c' & out & -> & _). cbn [snd fs spawned].
    split; [|reflexivity]. intros p Hp. now rewrite lookup_insert_ne.
  - rewrite prepare_unreadable by (unfold content_of; now rewrite E). now split.
  - rewrite prepare_unreadable by (unfold content_of; now rewrite E). now split.
Qed.

Lemma X6_prepare_frame_witness :
  "in/z.tex" <> "in/a.tex"
  /\ fs (snd (prepare "in/a.tex" batch_world)) !! "in/z.tex" = fs batch_world !! "in/z.tex".
Proof.
  split; [discriminate|].
  apply (proj1 (X6_prepare_frame "in/a.tex" batch_world)). discriminate.
Defined.

(** ** Paths at which nothing is *)

Lemma blocked_all_dirs (f : gmap string node) (dirs : list string) (path : string) :
  Forall (fun d => f !! d = Some Dir) dirs -> blocked f dirs path = None.
Proof.
  induction 1 as [|d dirs Hd _ IH]; [reflexivity|]. cbn [blocked]. now rewrite Hd.
Qed.

Lemma blocked_at (f : gmap string node) (pre : list string) (d : string)
    (post : list string) (path : string) :
  Forall (fun d => f !! d = Some Dir) pre ->
  blocked f (pre ++ d :: post) path
  = match f !! d with
    | Some Dir => blocked f post path
    | Some (File _) => Some (not_a_directory path)
    | None => Some (no_such_file path)
    end.
Proof.
  induction 1 as [|x pre Hx _ IH]; [reflexivity|].
  cbn [app blocked]. now rewrite Hx.
Qed.

(** ** What the converter spawns *)

Lemma quiet_ret {A} (a : A) : quiet (ret a).
Proof. intros w. reflexivity. Qed.

Lemma quiet_raise {A} (e : exn) : quiet (@raise A e).
Proof. intros w. reflexivity. Qed.

Lemma quiet_print (s : string) : quiet (print s).
Proof. intros w. reflexivity. Qed.

Lemma quiet_read_text (path : string) : quiet (read_text path).
Proof. intros w. unfold read_text. now destruct (fs w !! path) as [[|]|]. Qed.

Lemma quiet_write_text (path text : string) : quiet (write_text path text).
Proof. intros w. unfold write_text. now destruct (fs w !! path) as [[|]|]. Qed.

Lemma quiet_os_remove (path : string) : quiet (os_remove path).
Proof. intros w. unfold os_remove. now destruct (fs w !! path) as [[|]|]. Qed.

Lemma quiet_os_path_exists (path : string) : quiet (os_path_exists path).
Proof. intros w. reflexivity. Qed.

Lemma quiet_bind {A B} (m : M A) (k : A -> M B) :
  quiet m -> (forall a, quiet (k a)) -> quiet (bind m k).
Proof.
  intros Hm Hk w. unfold bind. specialize (Hm w).
  destruct (m w) as [[a|e] w']; cbn [snd] in *; [|exact Hm].
  now rewrite Hk.
Qed.

(** Behind a step, a quiet rest adds nothing to what the step spawned. *)
Lemma spawned_bind_quiet {A B} (m : M A) (k : A -> M B) (w : world) :
  (forall a, quiet (k a)) ->
  spawned (snd (bind m k w)) = spawned (snd (m w)).
Proof.
  intros Hk. unfold bind. destruct (m w) as [[a|e] w']; [apply Hk | reflexivity].
Qed.

Create HintDb quiet.

#[local] Hint Resolve quiet_ret quiet_raise quiet_print quiet_read_text
  quiet_write_text quiet_os_remove quiet_os_path_exists : quiet.

Ltac quiet_step :=
  first
    [ apply quiet_bind; [|intros ?]
    | match goal with |- quiet (if ?b then _ else _) => destruct b end
    | solve [auto with quiet] ].

Lemma quiet_remove_captions (tex_file : string) :
  quiet (remove_captions_from_tex tex_file).
Proof. unfold remove_captions_from_tex. repeat quiet_step. Qed.

Lemma quiet_ensure (tex_file : string) :
  quiet (ensure_latex_document_structure tex_file).
Proof. unfold ensure_latex_document_structure. repeat quiet_step. Qed.

Lemma quiet_remove_aux_files (tex_dir : string) (aux_files : list string) :
  quiet (remove_aux_files tex_dir aux_files).
Proof.
  induction aux_files as [|a rest IH]; cbn [remove_aux_files]; [auto with quiet|].
  repeat quiet_step.
Qed.

#[local] Hint Resolve quiet_remove_captions quiet_ensure quiet_remove_aux_files : quiet.

Lemma traces_quiet {A} (m : M A) : quiet m -> traces m [].
Proof.
  intros H w. specialize (H w). destruct (fst (m w)).
  - now rewrite app_nil_r.
  - exists []. split; [reflexivity | now rewrite app_nil_r].
Qed.

Lemma traces_bind {A B} (m : M A) (k : A -> M B) (f1 f2 : list (list string)) :
  traces m f1 -> (forall a, traces (k a) f2) -> traces (bind m k) (f1 ++ f2).
Proof.
  intros Hm Hk w. unfold bind. specialize (Hm w).
  destruct (m w) as [[a|e] w']; cbn [fst snd] in *.
  - specialize (Hk a w'). destruct (fst (k a w')).
    + now rewrite Hk, Hm, List.app_assoc.
    + destruct Hk as (l & [k2 ->] & ->). exists (f1 ++ l).
      split; [exists k2; now rewrite List.app_assoc | now rewrite Hm, List.app_assoc].
  - destruct Hm as (l & [k1 ->] & ->). exists l.
    split; [exists (k1 ++ f2); now rewrite List.app_assoc | reflexivity].
Qed.

Lemma prefix_of_two {A} (l : list A) (x y : A) :
  l `prefix_of` [x; y] -> l = [] \/ l = [x] \/ l = [x; y].
Proof.
  intros [k Hk]. destruct l as [|a [|b [|c l]]]; cbn in Hk.
  - now left.
  - injection Hk as <- _. right. now left.
  - injection Hk as <- <- _. right. now right.
  - discriminate Hk.
Qed.

Section Spawning.

Context {P : Platform}.

Variables (tex_file output_image : string) (density quality : Z).

Let tex_dir : string := PosixPath.dirname tex_file.
Let compile_cmd : list string := pdflatex_cmd tex_dir tex_file.
Let pdf_file : string := pdf_file_of tex_file.
Let render_cmd : list string := magick_cmd density pdf_file quality output_image.

(** A tool step spawns its command once, however the tool exits. *)
Lemma tool_step_spawns (what : string) (cmd : list string) (w : world) :
  spawned (snd (try_except (result <- subprocess_run cmd ;; print (stdout result))
                  (on_called_process_error what) w))
  = spawned w ++ [cmd].
Proof.
  destruct (Z.eq_dec (returncode (fst (run_tool cmd (fs w)))) 0%Z) as [Hz|Hnz].
  - now rewrite (tool_step_zero what cmd w Hz).
  - now rewrite (tool_step_nonzero what cmd w Hnz).
Qed.

Lemma traces_tool_step (what : string) (cmd : list string) :
  traces (try_except (result <- subprocess_run cmd ;; print (stdout result))
            (on_called_process_error what)) [cmd].
Proof.
  intros w. rewrite tool_step_spawns. destruct (fst _); [reflexivity|].
  now exists [cmd].
Qed.

Lemma traces_tex_to_image :
  traces (tex_to_image tex_file output_image density quality)
    ([] ++ [] ++ [compile_cmd] ++ [] ++ [] ++ [render_cmd] ++ [] ++ [] ++ [] ++ []).
Proof.
  unfold tex_to_image.
  repeat (apply traces_bind; [|intros ?]);
    try apply traces_tool_step;
    apply traces_quiet;
    repeat quiet_step.
Qed.

(** X7: on every world the converter spawns nothing, the compiler alone, or
    the compiler and then the rasterizer: no tool runs twice and the
    rasterizer never runs first.  A run that returns has spawned both. *)
Theorem X7_spawns_at_most_both (w : world) :
  exists l,
    spawned (snd (tex_to_image tex_file output_image density quality w)) = spawned w ++ l
    /\ (l = [] \/ l = [compile_cmd] \/ l = [compile_cmd; render_cmd])
    /\ (forall v, fst (tex_to_image tex_file output_image density quality w) = Ok v ->
        l = [compile_cmd; render_cmd]).
Proof.
  pose proof (traces_tex_to_image w) as H. cbn [app] in H.
  destruct (fst (tex_to_image tex_file output_image density quality w)) as [v|e].
  - exists [compile_cmd; render_cmd]. split; [exact H|]. split; [tauto | reflexivity].
  - destruct H as (l & Hl & H). exists l. split; [exact H|].
    split; [now apply prefix_of_two | discriminate].
Qed.

(** X8: a source that cannot be read makes the converter raise the error of
    the failed [open] and leaves the world as before: nothing is written,
    printed or spawned.  The error says that the path is a directory when
    it is one; when nothing is at the path, it says that a directory above
    the path is not a directory if the first of them that is not a
    directory is a regular file, and that there is no such file
    otherwise. *)
Theorem X8_unreadable_source (w : world) :
  content_of w tex_file = None ->
  exists e,
    tex_to_image tex_file output_image density quality w = (Raise e, w)
    /\ (fs w !! tex_file = Some Dir ->
        e = IsADirectoryError ("[Errno 21] Is a directory: " +:+ Str.repr tex_file))
    /\ (fs w !! tex_file = None ->
        (Forall (fun d => fs w !! d = Some Dir) (ancestors tex_file) ->
         e = FileNotFoundError
               ("[Errno 2] No such file or directory: " +:+ Str.repr tex_file))
        /\ (forall pre d post,
              ancestors tex_file = pre ++ d :: post ->
              Forall (fun d => fs w !! d = Some Dir) pre ->
              (fs w !! d = None ->
               e = FileNotFoundError
                     ("[Errno 2] No such file or directory: " +:+ Str.repr tex_file))
              /\ (forall t, fs w !! d = Some (File t) ->
                  e = NotADirectoryError
                        ("[Errno 20] Not a directory: " +:+ Str.repr tex_file)))).
Proof.
  unfold content_of. intros H.
  unfold tex_to_image, bind at 1, remove_captions_from_tex, bind at 1, read_text.
  destruct (fs w !! tex_file) as [[c|]|]; [discriminate H| |].
  - eexists. split; [reflexivity|]. split; [reflexivity | discriminate].
  - eexists. split; [reflexivity|]. split; [discriminate|]. intros _.
    unfold absent_error. split.
    + intros Hall. now rewrite (blocked_all_dirs _ _ _ Hall).
    + intros pre d post Hanc Hpre. rewrite Hanc. split.
      * intros Hd. now rewrite (blocked_at _ _ _ _ _ Hpre), Hd.
      * intros t Hd. now rewrite (blocked_at _ _ _ _ _ Hpre), Hd.
Qed.

(** X9: when the compiler has succeeded and the rasterizer exits with a
    status other than zero, the converter prints the captured error output
    of the rasterizer and raises a runtime error that names its command line
    and status; nothing is cleaned up: the file store is the one the
    rasterizer left, with the document still in place. *)
Theorem X9_rasterizer_failure (w : world) (c : string) :
  fs w !! tex_file = Some (File c) ->
  let w1 := snd (prepare tex_file w) in
  let compiled := run_tool compile_cmd (fs w1) in
  let rendered := run_tool render_cmd (snd compiled) in
  returncode (fst compiled) = 0%Z ->
  is_Some (snd compiled !! pdf_file) ->
  returncode (fst rendered) <> 0%Z ->
  tex_to_image tex_file output_image density quality w
  = (Raise (RuntimeError
              ("Error converting PDF to image: "
               +:+ exn_str (CalledProcessError render_cmd (returncode (fst rendered))
                              EmptyString EmptyString))),
     {| fs := snd rendered;
        console := console w1 ++ [stdout (fst compiled); stderr (fst rendered)];
        spawned := spawned w ++ [compile_cmd; render_cmd] |}).
Proof.
  intros H w1 compiled rendered Hrc Hpdf Hrc2.
  destruct (prepare_ok _ _ _ H) as [_ Hsp]. fold w1 in Hsp.
  rewrite (tex_to_image_prepared tex_file output_image density quality w c H). fold w1.
  run_ok (tool_step_zero "Error compiling LaTeX file" compile_cmd w1 Hrc).
  fold compiled. rewrite check_present by exact Hpdf.
  erewrite bind_raise;
    [|apply (tool_step_nonzero "Error converting PDF to image" render_cmd); exact Hrc2].
  cbn [fs console spawned]. fold rendered. now rewrite Hsp, <- !List.app_assoc.
Qed.

Lemma tex_to_image_spawn_cases (w : world) :
  exists l,
    spawned (snd (tex_to_image tex_file output_image density quality w)) = spawned w ++ l
    /\ (l = [] \/ l = [compile_cmd] \/ l = [compile_cmd; render_cmd]).
Proof.
  pose proof (traces_tex_to_image w) as H. cbn [app] in H.
  destruct (fst (tex_to_image tex_file output_image density quality w)) as [v|e].
  - exists [compile_cmd; render_cmd]. split; [exact H | tauto].
  - destruct H as (l & Hl & H). exists l. split; [exact H | now apply prefix_of_two].
Qed.

End Spawning.

Lemma X8_unreadable_source_witness :
  (content_of batch_world "in/none.tex" = None
   /\ content_of batch_world "in/a.tex/x.tex" = None)
  /\ tex_to_image (P:=demo_platform) "in/none.tex" "out/none.png" 300 90 batch_world
     = (Raise (FileNotFoundError "[Errno 2] No such file or directory: 'in/none.tex'"),
        batch_world)
  /\ tex_to_image (P:=demo_platform) "in/a.tex/x.tex" "out/x.png" 300 90 batch_world
     = (Raise (NotADirectoryError "[Errno 20] Not a directory: 'in/a.tex/x.tex'"),
        batch_world).
Proof.
  split; [split; vm_compute; reflexivity|]. split.
  - destruct (X8_unreadable_source (P:=demo_platform) "in/none.tex" "out/none.png"
                300 90 batch_world) as (e & Hrun & _ & Hnone);
      [vm_compute; reflexivity|].
    destruct Hnone as [Hall _]; [vm_compute; reflexivity|].
    rewrite Hrun, Hall; [reflexivity|].
    vm_compute. repeat constructor.
  - destruct (X8_unreadable_source (P:=demo_platform) "in/a.tex/x.tex" "out/x.png"
                300 90 batch_world) as (e & Hrun & _ & Hnone);
      [vm_compute; reflexivity|].
    destruct Hnone as [_ Hat]; [vm_compute; reflexivity|].
    destruct (Hat ["in"] "in/a.tex" []) as [_ Hfile];
      [vm_compute; reflexivity | vm_compute; repeat constructor|].
    rewrite Hrun, (Hfile ("\caption{A}" +:+ nl +:+ "\textbf{a}"));
      [reflexivity | vm_compute; reflexivity].
Defined.

Lemma X9_rasterizer_failure_witness :
  (fs batch_world !! "in/a.tex" = Some (File ("\caption{A}" +:+ nl +:+ "\textbf{a}"))
   /\ returncode (fst (run_tool (Platform:=failing_magick_platform)
                         (magick_cmd 300 (pdf_file_of "in/a.tex") 90 "out/a.png")
                         (snd (run_tool (Platform:=failing_magick_platform)
                                 (pdflatex_cmd "in" "in/a.tex")
                                 (fs (snd (prepare "in/a.tex" batch_world))))))) <> 0%Z)
  /\ fst (tex_to_image (P:=failing_magick_platform) "in/a.tex" "out/a.png" 300 90
            batch_world)
     = Raise (RuntimeError
                "Error converting PDF to image: Command '['magick', '-density', '300', 'in/a.pdf', '-background', 'white', '-alpha', 'remove', '-alpha', 'off', '-trim', '-quality', '90', 'out/a.png']' returned non-zero exit status 1.")
  /\ is_Some (fs (snd (tex_to_image (P:=failing_magick_platform) "in/a.tex" "out/a.png"
                         300 90 batch_world)) !! "in/a.pdf").
Proof.
  split; [split; vm_compute; [reflexivity | discriminate]|].
  rewrite (X9_rasterizer_failure (P:=failing_magick_platform) "in/a.tex" "out/a.png"
             300 90 batch_world ("\caption{A}" +:+ nl +:+ "\textbf{a}"));
    [| vm_compute; reflexivity | vm_compute; reflexivity | vm_compute; eauto
     | vm_compute; discriminate].
  split; [vm_compute; reflexivity | vm_compute; eauto].
Defined.

(** ** Names and derived paths *)

Lemma replace_absent (old new s : string) :
  old <> EmptyString -> Str.contains old s = false -> Str.replace old new s = s.
Proof.
  intros Hold. unfold Str.replace. induction s as [|c s IH]; intros H.
  - now apply replace_go_empty.
  - cbn [Str.contains] in H. apply orb_false_iff in H as [Hp Hs].
    cbn [Str.replace_go]. rewrite Hp. now rewrite (IH Hs).
Qed.

Lemma path_without_slash (p : string) :
  has_char SLASH p = false ->
  PosixPath.dirname p = EmptyString /\ PosixPath.basename p = p.
Proof.
  intros H. unfold PosixPath.dirname, PosixPath.basename, PosixPath.split.
  now rewrite (rcut_no_sep _ _ H).
Qed.

Lemma join_empty_l (b : string) : PosixPath.join EmptyString b = b.
Proof. unfold PosixPath.join. now destruct (Str.startswith "/" b). Qed.

Lemma pdf_file_of_plain_name (tex_file : string) :
  has_char SLASH tex_file = false ->
  Str.contains ".tex" tex_file = false ->
  pdf_file_of tex_file = tex_file.
Proof.
  intros Hs Hc. unfold pdf_file_of.
  destruct (path_without_slash _ Hs) as [-> ->].
  rewrite replace_absent by (discriminate || exact Hc). apply join_empty_l.
Qed.

(** X10: for a listed name [stem.tex] in which [.tex] occurs nowhere else,
    the batch writes the image to the output folder under [stem.png]. *)
Theorem X10_image_path_of_simple_name (output_folder stem : string) :
  Str.contains ".tex" (stem +:+ ".te") = false ->
  Str.endswith ".tex" (stem +:+ ".tex") = true
  /\ output_image_path_of output_folder (stem +:+ ".tex")
     = PosixPath.join output_folder (stem +:+ ".png").
Proof.
  intros H. split; [|now apply output_image_path_simple].
  clear H. induction stem as [|c stem IH]; [reflexivity|].
  cbn [String.append Str.endswith]. rewrite IH. apply orb_true_r.
Qed.

Lemma X10_image_path_of_simple_name_witness :
  Str.contains ".tex" ("model_summary" +:+ ".te") = false
  /\ Str.endswith ".tex" ("model_summary" +:+ ".tex") = true
  /\ output_image_path_of "out" ("model_summary" +:+ ".tex")
     = PosixPath.join "out" ("model_summary" +:+ ".png").
Proof.
  split; [vm_compute; reflexivity|].
  apply (X10_image_path_of_simple_name "out" "model_summary"). vm_compute; reflexivity.
Defined.

Section PlainName.

Context {P : Platform}.

Variables (tex_file output_image : string) (density quality : Z).

(** X11: for a source path without directory part and without [.tex] in it,
    the document that the converter expects is the source itself: once the
    compiler has exited with status zero and the source is still there, the
    existence check passes and the rasterizer is run on the source, after a
    compiler run with an empty output directory. *)
Theorem X11_source_taken_for_document (w : world) (c : string) :
  has_char SLASH tex_file = false ->
  Str.contains ".tex" tex_file = false ->
  fs w !! tex_file = Some (File c) ->
  let compile_cmd := ["pdflatex"; "-output-directory"; EmptyString; tex_file] in
  let compiled := run_tool compile_cmd (fs (snd (prepare tex_file w))) in
  returncode (fst compiled) = 0%Z ->
  is_Some (snd compiled !! tex_file) ->
  pdf_file_of tex_file = tex_file
  /\ spawned (snd (tex_to_image tex_file output_image density quality w))
     = spawned w ++ [compile_cmd; magick_cmd density tex_file quality output_image].
Proof.
  intros Hs Hc H compile_cmd compiled Hrc Hsrc.
  pose proof (pdf_file_of_plain_name _ Hs Hc) as Hpdf.
  destruct (path_without_slash _ Hs) as [Hdir _].
  split; [exact Hpdf|].
  destruct (prepare_ok _ _ _ H) as [_ Hsp].
  rewrite (tex_to_image_prepared tex_file output_image density quality w c H).
  rewrite Hpdf, Hdir. fold compile_cmd.
  run_ok (tool_step_zero "Error compiling LaTeX file" compile_cmd _ Hrc).
  fold compiled. rewrite check_present by exact Hsrc.
  rewrite spawned_bind_quiet by (intros ?; repeat quiet_step).
  rewrite tool_step_spawns. cbn [spawned]. now rewrite Hsp, <- List.app_assoc.
Qed.

End PlainName.

Lemma X11_source_taken_for_document_witness :
  (has_char SLASH "notes.latex" = false
   /\ Str.contains ".tex" "notes.latex" = false
   /\ fs latex_world !! "notes.latex" = Some (File "\textbf{n}"))
  /\ pdf_file_of "notes.latex" = "notes.latex"
  /\ spawned (snd (tex_to_image (P:=idle_platform) "notes.latex" "notes.png" 300 90
                     latex_world))
     = spawned latex_world
       ++ [["pdflatex"; "-output-directory"; EmptyString; "notes.latex"];
           magick_cmd 300 "notes.latex" 90 "notes.png"].
Proof.
  split; [repeat split; vm_compute; reflexivity|].
  apply (X11_source_taken_for_document (P:=idle_platform) "notes.latex" "notes.png"
           300 90 latex_world "\textbf{n}"); vm_compute; eauto.
Defined.

(** ** More on the batch *)

Section BatchMore.

Context {P : Platform}.

Variables (input_folder output_folder : string) (density quality : Z).

Let step (w : world) (file_name : string) : world :=
  snd (convert_one input_folder output_folder density quality file_name w).






(** The converter returns nothing but the image path it was given. *)
Lemma tex_to_image_returns (tex_file output_image : string) (w w' : world) (v : string) :
  tex_to_image tex_file output_image density quality w = (Ok v, w') ->
  v = output_image.
Proof.
  intros H. unfold tex_to_image in H. do 9 inv_bind H.
  unfold ret in H. now injection H as <- _.
Qed.

(** X14: every listed name that ends in [.tex] is reported: the last line
    that its turn puts on the console either says that the file was
    converted, naming the source path and the derived image path, or says
    that processing it failed, naming the file and the error. *)
Theorem X14_every_source_is_reported (file_name : string) (w : world) :
  Str.endswith ".tex" file_name = true ->
  exists before line,
    console (step w file_name) = console w ++ before ++ [line]
    /\ (line = "Converted: " +:+ PosixPath.join input_folder file_name +:+ " to "
               +:+ output_image_path_of output_folder file_name
        \/ exists e, line = "Error processing " +:+ file_name +:+ ": " +:+ exn_str e).
Proof.
  intros Hn. unfold step, convert_one. rewrite Hn. unfold try_except, bind at 1.
  pose proof (grows_tex_to_image density quality
                (PosixPath.join input_folder file_name)
                (output_image_path_of output_folder file_name) w) as [k Hk].
  destruct (tex_to_image _ _ density quality w) as [[v|e] w'] eqn:Hrun;
    cbn [snd] in Hk; cbn [print snd console]; rewrite Hk.
  - apply tex_to_image_returns in Hrun as ->.
    exists k. eexists. split; [now rewrite <- List.app_assoc | now left].
  - exists k. eexists. split; [now rewrite <- List.app_assoc | right; now exists e].
Qed.

Lemma step_spawns (file_name : string) (w : world) :
  exists l,
    spawned (step w file_name) = spawned w ++ l /\ spawns_of_name input_folder output_folder density quality file_name l.
Proof.
  unfold step, convert_one, spawns_of_name.
  destruct (Str.endswith ".tex" file_name).
  - unfold try_except, bind at 1.
    destruct (tex_to_image_spawn_cases
                (PosixPath.join input_folder file_name)
                (output_image_path_of output_folder file_name) density quality w)
      as (l & Hl & Hcases).
    exists l. split; [|exact Hcases].
    destruct (tex_to_image _ _ density quality w) as [[v|e] w']; exact Hl.
  - exists []. split; [now rewrite app_nil_r | reflexivity].
Qed.

Lemma steps_spawn (names : list string) (w : world) :
  exists per_name,
    spawned (fold_left step names w) = spawned w ++ concat per_name
    /\ Forall2 (spawns_of_name input_folder output_folder density quality) names per_name.
Proof.
  revert w; induction names as [|n names IH]; intros w.
  - exists []. split; [now rewrite app_nil_r | constructor].
  - cbn [fold_left]. destruct (step_spawns n w) as (l1 & H1 & Hcases).
    destruct (IH (step w n)) as (rest & H2 & Hrest).
    exists (l1 :: rest). split; [|now constructor].
    cbn [concat]. now rewrite H2, H1, List.app_assoc.
Qed.

(** X15: once the output folder is there, what the batch spawns is, name by
    name in the order of the listing, nothing for a name that does not end
    in [.tex], and for a name that does, nothing, the compiler command for
    this file, or that command followed by the rasterizer command for this
    file: within its turn no file is compiled or rendered twice. *)
Theorem X15_batch_spawns_at_most_two_each (w : world) :
  fs w !! input_folder = Some Dir ->
  fst (make_output_folder output_folder w) = Ok tt ->
  exists per_name,
    spawned (snd (convert_all_tex_to_images input_folder output_folder density quality w))
    = spawned w ++ concat per_name
    /\ Forall2 (spawns_of_name input_folder output_folder density quality)
         (listdir_order (fs (snd (make_output_folder output_folder w))) input_folder)
         per_name.
Proof.
  intros H Hok.
  rewrite (convert_all_steps input_folder output_folder density quality w H Hok).
  cbn [snd].
  destruct (steps_spawn
              (listdir_order (fs (snd (make_output_folder output_folder w))) input_folder)
              (snd (make_output_folder output_folder w))) as (per_name & Hl & Hall).
  exists per_name. split; [|exact Hall]. etrans; [exact Hl|]. f_equal.
  now destruct (only_adds_make_output_folder output_folder w) as (_ & Hs & _).
Qed.

End BatchMore.



Lemma X14_every_source_is_reported_witness :
  Str.endswith ".tex" "z.tex" = true
  /\ exists before line,
       console (snd (convert_one (P:=demo_platform) "in" "out" 300 90 "z.tex" batch_world))
       = console batch_world ++ before ++ [line]
       /\ (line = "Converted: " +:+ PosixPath.join "in" "z.tex" +:+ " to "
                  +:+ output_image_path_of "out" "z.tex"
           \/ exists e,
                line = "Error processing " +:+ "z.tex" +:+ ": "
                       +:+ exn_str (P:=demo_platform) e).
Proof.
  split; [vm_compute; reflexivity|].
  apply (X14_every_source_is_reported (P:=demo_platform) "in" "out" 300 90 "z.tex"
           batch_world). vm_compute; reflexivity.
Defined.

Lemma X15_batch_spawns_at_most_two_each_witness :
  (fs batch_world !! "in" = Some Dir
   /\ fst (make_output_folder "out" batch_world) = Ok tt)
  /\ exists per_name,
       spawned (snd (convert_all_tex_to_images (P:=demo_platform) "in" "out" 300 90
                       batch_world))
       = spawned batch_world ++ concat per_name
       /\ Forall2 (spawns_of_name "in" "out" 300 90)
            (listdir_order (Platform:=demo_platform)
               (fs (snd (make_output_folder "out" batch_world))) "in")
            per_name.
Proof.
  split; [split; vm_compute; reflexivity|].
  apply (X15_batch_spawns_at_most_two_each (P:=demo_platform) "in" "out" 300 90
           batch_world); vm_compute; reflexivity.
Defined.
